(** * cryptowelder: the metric welder ([cryptowelder/metric.py])

    A shallow embedding of [MetricWelder]: the rate table built from a batch
    of tickers, the evaluation of conversion chains against it, the four
    metric builders with their [try]/[except] boundary, the per-minute
    snapshot fan-out and the tiered purge.

    Modelling choices.
    - [Decimal] values are exact rationals ([Qc], canonical fractions, so
      that Python's numeric [==] is Leibniz equality); the 28-digit context
      precision and the special values (NaN, infinities) of Python's
      [decimal] are left out.
    - A nullable attribute is an [option]; Python's [None] is [None].
    - A [datetime] is a wall-clock reading in microseconds together with a
      fixed UTC offset; the purge checks that its cutoffs are dates that
      exist, as [timedelta] and [datetime] do.
    - The collaborator [context] is a record of functions; a call that can
      raise returns a [res].  Storage calls and logged warnings are recorded
      in a state that is threaded through the builders; the [debug] and
      [info] lines of the logger are not. *)

From Stdlib Require Import ZArith QArith Qcanon String List Lia.
From stdpp Require Import base option gmap strings pretty list fin_maps numbers.

Local Open Scope string_scope.
Local Open Scope Z_scope.
Local Open Scope list_scope.

(** ** Decimals *)

Abbreviation Decimal := Qc.

Definition _ONE : Decimal := Q2Qc 1.
Definition _HALF : Decimal := Q2Qc (1 # 2).
Definition _ZERO : Decimal := Q2Qc 0.

(** [Decimal(z)] for an integer [z]. *)
Definition dec (z : Z) : Decimal := Q2Qc (inject_Z z).

(** [x != d] where [x] may be [None]: [None != d] is [True] in Python. *)
Definition py_ne (x : option Decimal) (d : Decimal) : bool :=
  match x with
  | Some v => bool_decide (v ≠ d)
  | None => true
  end.

(** ** Dates and times *)

Record datetime := mk_datetime {
  wall : Z;        (* microseconds of the local wall clock since 1970-01-01 00:00 *)
  utcoffset : Z    (* offset of [tzinfo] from UTC, in microseconds *)
}.

Definition usec_per_minute : Z := 60 * 1000000.
Definition usec_per_hour : Z := 60 * usec_per_minute.
Definition usec_per_day : Z := 24 * usec_per_hour.

(** [dt - timedelta(minutes=n)], [dt + timedelta(minutes=n)], [dt - timedelta(hours=n)]. *)
Definition sub_minutes (dt : datetime) (n : Z) : datetime :=
  mk_datetime (wall dt - n * usec_per_minute) (utcoffset dt).
Definition add_minutes (dt : datetime) (n : Z) : datetime :=
  mk_datetime (wall dt + n * usec_per_minute) (utcoffset dt).
Definition sub_hours (dt : datetime) (n : Z) : datetime :=
  mk_datetime (wall dt - n * usec_per_hour) (utcoffset dt).
Definition sub_days (dt : datetime) (n : Z) : datetime :=
  mk_datetime (wall dt - n * usec_per_day) (utcoffset dt).

(** [dt.replace(tzinfo=other.tzinfo)]: same wall clock, other zone. *)
Definition replace_tzinfo (dt other : datetime) : datetime :=
  mk_datetime (wall dt) (utcoffset other).

(** [dt.astimezone(other.tzinfo)]: same instant, wall clock of the other zone. *)
Definition astimezone (dt other : datetime) : datetime :=
  mk_datetime (wall dt - utcoffset dt + utcoffset other) (utcoffset other).

(** [a < b] on aware datetimes compares the instants. *)
Definition dt_ltb (a b : datetime) : bool :=
  (wall a - utcoffset a) <? (wall b - utcoffset b).

(** [dt.replace(second=0, microsecond=0)]. *)
Definition replace_second0 (dt : datetime) : datetime :=
  mk_datetime (wall dt - wall dt mod usec_per_minute) (utcoffset dt).

(** Proleptic Gregorian calendar: day number since 1970-01-01 of a civil
    date, and back. *)
Definition days_from_civil (y m d : Z) : Z :=
  let y' := if m <=? 2 then y - 1 else y in
  let era := y' / 400 in
  let yoe := y' - era * 400 in
  let mp := (m + 9) mod 12 in
  let doy := (153 * mp + 2) / 5 + d - 1 in
  let doe := yoe * 365 + yoe / 4 - yoe / 100 + doy in
  era * 146097 + doe - 719468.

Definition civil_from_days (z : Z) : Z * Z * Z :=
  let z' := z + 719468 in
  let era := z' / 146097 in
  let doe := z' - era * 146097 in
  let yoe := (doe - doe / 1460 + doe / 36524 - doe / 146096) / 365 in
  let doy := doe - (365 * yoe + yoe / 4 - yoe / 100) in
  let mp := (5 * doy + 2) / 153 in
  let d := doy - (153 * mp + 2) / 5 + 1 in
  let m := if mp <? 10 then mp + 3 else mp - 9 in
  let y := yoe + era * 400 in
  (if m <=? 2 then y + 1 else y, m, d).

(** [dt.replace(microsecond=0, second=0, minute=0, hour=0)]. *)
Definition replace_midnight (dt : datetime) : datetime :=
  mk_datetime (wall dt - wall dt mod usec_per_day) (utcoffset dt).

(** [dt.replace(microsecond=0, second=0, minute=0, hour=0, day=1)]. *)
Definition replace_month_start (dt : datetime) : datetime :=
  let '(y, m, _) := civil_from_days (wall dt / usec_per_day) in
  mk_datetime (days_from_civil y m 1 * usec_per_day) (utcoffset dt).

(** [dt.replace(microsecond=0, second=0, minute=0, hour=0, day=1, month=1)]. *)
Definition replace_year_start (dt : datetime) : datetime :=
  let '(y, _, _) := civil_from_days (wall dt / usec_per_day) in
  mk_datetime (days_from_civil y 1 1 * usec_per_day) (utcoffset dt).

(** [datetime(y, m, d, hh, mm, tzinfo=off)], for examples. *)
Definition civil (y m d hh mm : Z) (off_minutes : Z) : datetime :=
  mk_datetime (days_from_civil y m d * usec_per_day + hh * usec_per_hour + mm * usec_per_minute)
              (off_minutes * usec_per_minute).

(** ** Records handed over by the context *)

Record Ticker := mk_Ticker {
  tk_site : string;
  tk_code : string;
  tk_time : datetime;
  tk_ask : option Decimal;
  tk_bid : option Decimal;
  tk_ltp : option Decimal
}.

Record Product := mk_Product {
  pr_disp : string;
  pr_expr : option datetime
}.

Record Evaluation := mk_Evaluation {
  ev_ticker_site : option string;
  ev_ticker_code : option string;
  ev_convert_site : option string;
  ev_convert_code : option string
}.

Record Account := mk_Account { ac_disp : string }.
Record Balance := mk_Balance { bc_amnt : option Decimal }.
Record Position := mk_Position {
  ps_fund : option Decimal;
  ps_inst : option Decimal
}.

Module TickerDto.
Record t := mk {
  ticker : Ticker;
  product : option Product;
  fund : option Evaluation
}.
End TickerDto.

Module BalanceDto.
Record t := mk {
  balance : Balance;
  account : option Account;
  evaluation : option Evaluation
}.
End BalanceDto.

Module PositionDto.
Record t := mk {
  position : Position;
  product : option Product;
  fund : option Evaluation;
  inst : option Evaluation
}.
End PositionDto.

Module TransactionDto.
Record t := mk {
  tx_net_inst : option Decimal;
  tx_net_fund : option Decimal;
  tx_grs_fund : option Decimal;
  ev_inst : option Evaluation;
  ev_fund : option Evaluation;
  product : option Product
}.
End TransactionDto.

Record Metric := mk_Metric {
  mc_type : string;
  mc_name : string;
  mc_time : datetime;
  mc_amnt : Decimal
}.

(** ** The rate table ([_calculate_prices]) *)

(** [defaultdict(lambda: dict())]: site -> code -> price or [None]. *)
Abbreviation RateTable := (gmap string (gmap string (option Decimal))).

(** [prices[site][code] = price]; a missing site is created on access. *)
Definition setitem2 (prices : RateTable) (site code : string)
    (price : option Decimal) : RateTable :=
  <[site := <[code := price]> (default ∅ (prices !! site))]> prices.

(** The body of the loop of [_calculate_prices] up to the assignment: the
    price computed for one ticker. *)
Definition ticker_price (ticker : Ticker) : option Decimal :=
  let ask := if py_ne (tk_ask ticker) _ZERO then tk_ask ticker else None in
  let bid := if py_ne (tk_bid ticker) _ZERO then tk_bid ticker else None in
  let ltp := if py_ne (tk_ltp ticker) _ZERO then tk_ltp ticker else None in
  let candidates := omap id [ask; bid; ltp] in
  match candidates with
  | c0 :: c1 :: _ => Some ((c0 + c1) * _HALF)%Qc
  | c0 :: [] => Some c0
  | [] => None
  end.

Definition _calculate_prices (tickers : option (list TickerDto.t)) : RateTable :=
  fold_left
    (fun prices dto =>
       let ticker := TickerDto.ticker dto in
       setitem2 prices (tk_site ticker) (tk_code ticker) (ticker_price ticker))
    (default [] tickers) ∅.

(** [d.get(k)] on a dict whose values may be [None]. *)
Definition dict_get (d : gmap string (option Decimal)) (k : string) : option Decimal :=
  d !! k ≫= id.

(** [prices.get(site, {}).get(code)]. *)
Definition price_of (prices : RateTable) (site code : string) : option Decimal :=
  dict_get (default ∅ (prices !! site)) code.

(** [code in prices.get(site, {})]: the key is bound, whatever its value. *)
Definition has_entry (prices : RateTable) (site code : string) : bool :=
  bool_decide (is_Some (default ∅ (prices !! site) !! code)).

(** ** Exceptions and results *)

Inductive exn :=
| AttributeError     (* an attribute of [None] is read *)
| TypeError          (* [int(None)] *)
| StorageError (what : string)    (* raised by a call of the context *)
| OverflowError.     (* a [timedelta] or a date out of range *)

Inductive res (A : Type) :=
| Ok (a : A)
| Raise (e : exn).
Arguments Ok {A} a.
Arguments Raise {A} e.

Definition res_bind {A B} (r : res A) (k : A -> res B) : res B :=
  match r with
  | Ok a => k a
  | Raise e => Raise e
  end.

(** [int(v)] on a property value. *)
Definition py_int (v : option Z) : res Z :=
  match v with
  | Some n => Ok n
  | None => Raise TypeError
  end.

(** ** The evaluator ([_calculate_evaluation]) *)

(** One leg of [_calculate_evaluation]: the block guarded by
    [site is not None and code is not None].  The result is [Ok None] where
    the source returns [None], and [Ok (Some price')] where it falls through
    with the updated [price].  A [None] table has no [get]. *)
Definition eval_leg (prices : option RateTable) (site code : option string)
    (price : Decimal) : res (option Decimal) :=
  match site, code with
  | Some s, Some c =>
      match prices with
      | None => Raise AttributeError
      | Some table =>
          let codes := table !! s in
          let p := match codes with
                   | Some d => dict_get d c
                   | None => None
                   end in
          match p with
          | None => Ok None
          | Some p => if bool_decide (p = _ZERO) then Ok None
                      else Ok (Some (price * p)%Qc)
          end
      end
  | _, _ => Ok (Some price)
  end.

Definition _calculate_evaluation (evaluation : option Evaluation)
    (prices : option RateTable) : res (option Decimal) :=
  match evaluation with
  | None => Ok None
  | Some ev =>
      let price := _ONE in
      match eval_leg prices (ev_ticker_site ev) (ev_ticker_code ev) price with
      | Ok (Some price) =>
          eval_leg prices (ev_convert_site ev) (ev_convert_code ev) price
      | r => r
      end
  end.

(** ** The context *)

Inductive call :=
| SaveMetrics (metrics : list Metric)
| DeleteMetrics (cutoff : datetime) (exclude_minutes : list Z).

Record Context := mk_Context {
  get_now : datetime;
  get_property : string -> string -> option Z -> option Z;
  fetch_tickers : datetime -> bool -> res (option (list TickerDto.t));
  fetch_balances : datetime -> res (option (list BalanceDto.t));
  fetch_positions : datetime -> res (option (list PositionDto.t));
  fetch_transactions : datetime -> datetime -> res (option (list TransactionDto.t));
  save_metrics_result : list Metric -> res unit;
  delete_metrics_result : datetime -> list Z -> res Z
}.

(** What the welder leaves behind: the storage calls it made and the
    warnings it logged, oldest first. *)
Record State := mk_State {
  calls : list call;
  warnings : list (string * exn)
}.

Definition M (A : Type) : Type := State -> res A * State.

Definition save_metrics (ctx : Context) (metrics : list Metric) : M unit :=
  fun st => (save_metrics_result ctx metrics,
             mk_State (calls st ++ [SaveMetrics metrics]) (warnings st)).

Definition delete_metrics (ctx : Context) (cutoff : datetime)
    (exclude_minutes : list Z) : M Z :=
  fun st => (delete_metrics_result ctx cutoff exclude_minutes,
             mk_State (calls st ++ [DeleteMetrics cutoff exclude_minutes]) (warnings st)).

(** [self.__logger.warn('<tag> : %s : %s', type(e), e.args)]. *)
Definition warn (tag : string) (e : exn) (st : State) : State :=
  mk_State (calls st) (warnings st ++ [(tag, e)]).

(** [try: body except BaseException as e: warn(tag, e)]. *)
Definition try_except (tag : string) (body : M unit) : M unit :=
  fun st =>
    match body st with
    | (Ok _, st') => (Ok tt, st')
    | (Raise e, st') => (Ok tt, warn tag e st')
    end.

(** A pure computation that can raise, followed by the rest. *)
Definition lift_bind {A B} (r : res A) (k : A -> M B) : M B :=
  fun st =>
    match r with
    | Ok a => k a st
    | Raise e => (Raise e, st)
    end.

Definition _ID : string := "metric".

(** [for dto in values: m = f(dto); if m is None: continue; metrics.append(m)],
    where [f] can raise: the metrics collected, or the first exception. *)
Fixpoint collect {A} (f : A -> res (option Metric)) (values : list A)
    : res (list Metric) :=
  match values with
  | [] => Ok []
  | dto :: rest =>
      match f dto with
      | Raise e => Raise e
      | Ok o =>
          match collect f rest with
          | Raise e => Raise e
          | Ok metrics => Ok (option_list o ++ metrics)
          end
      end
  end.

(** ** Ticker metrics ([_convert_ticker], [process_ticker]) *)

Definition _convert_ticker (ctx : Context) (timestamp : datetime)
    (prices : RateTable) (dto : TickerDto.t) : res (option Metric) :=
  let threshold_minutes := get_property ctx _ID "ticker_threshold" (Some 3) in
  res_bind (py_int threshold_minutes) (fun minutes =>
  let threshold_cutoff := sub_minutes timestamp minutes in
  let ticker := TickerDto.ticker dto in
  if dt_ltb (replace_tzinfo (tk_time ticker) threshold_cutoff) threshold_cutoff
  then Ok None
  else
    let price := price_of prices (tk_site ticker) (tk_code ticker) in
    match price, TickerDto.product dto with
    | Some price, Some product =>
        if bool_decide (price = _ZERO) then Ok None
        else
          let expiry := pr_expr product in
          if match expiry with
             | Some expiry => dt_ltb (astimezone expiry timestamp) timestamp
             | None => false
             end
          then Ok None
          else
            res_bind (_calculate_evaluation (TickerDto.fund dto) (Some prices))
              (fun rate =>
                 match rate with
                 | None => Ok None
                 | Some rate =>
                     Ok (Some (mk_Metric "ticker" (pr_disp product) timestamp
                                         (price * rate)%Qc))
                 end)
    | _, _ => Ok None
    end).

(** Returns [prices]: [None] when [fetch_tickers] raised, the table once it
    has been computed, whatever happens afterwards. *)
Definition process_ticker (ctx : Context) (timestamp : datetime)
    : State -> option RateTable * State :=
  fun st =>
    match fetch_tickers ctx timestamp true with
    | Raise e => (None, warn "Ticker" e st)
    | Ok values =>
        let prices := _calculate_prices values in
        match collect (_convert_ticker ctx timestamp prices) (default [] values) with
        | Raise e => (Some prices, warn "Ticker" e st)
        | Ok metrics =>
            match save_metrics ctx metrics st with
            | (Ok _, st') => (Some prices, st')
            | (Raise e, st') => (Some prices, warn "Ticker" e st')
            end
        end
    end.

(** ** Balance metrics ([process_balance]) *)

Definition balance_metric (timestamp : datetime) (prices : option RateTable)
    (dto : BalanceDto.t) : res (option Metric) :=
  let amount := bc_amnt (BalanceDto.balance dto) in
  res_bind (_calculate_evaluation (BalanceDto.evaluation dto) prices) (fun rate =>
  match BalanceDto.account dto, amount, rate with
  | Some account, Some amount, Some rate =>
      Ok (Some (mk_Metric "balance" (ac_disp account) timestamp (amount * rate)%Qc))
  | _, _, _ => Ok None
  end).

Definition balance_body (ctx : Context) (timestamp : datetime)
    (prices : option RateTable) : M unit :=
  lift_bind (fetch_balances ctx timestamp) (fun values =>
  lift_bind (collect (balance_metric timestamp prices) (default [] values)) (fun metrics =>
  save_metrics ctx metrics)).

Definition process_balance (ctx : Context) (timestamp : datetime)
    (prices : option RateTable) : M unit :=
  try_except "Balance" (balance_body ctx timestamp prices).

(** ** Position metrics ([process_position]) *)

(** Body of the first loop: [position@upl]. *)
Definition position_upl (timestamp : datetime) (prices : option RateTable)
    (dto : PositionDto.t) : res (option Metric) :=
  let amount := ps_fund (PositionDto.position dto) in
  res_bind (_calculate_evaluation (PositionDto.fund dto) prices) (fun rate =>
  match PositionDto.product dto, amount, rate with
  | Some product, Some amount, Some rate =>
      Ok (Some (mk_Metric "position@upl" (pr_disp product) timestamp (amount * rate)%Qc))
  | _, _, _ => Ok None
  end).

(** Body of the second loop: [position@qty]. *)
Definition position_qty (timestamp : datetime) (prices : option RateTable)
    (dto : PositionDto.t) : res (option Metric) :=
  let amount := ps_inst (PositionDto.position dto) in
  res_bind (_calculate_evaluation (PositionDto.inst dto) prices) (fun rate =>
  match PositionDto.product dto, amount, rate with
  | Some product, Some amount, Some rate =>
      Ok (Some (mk_Metric "position@qty" (pr_disp product) timestamp (amount * rate)%Qc))
  | _, _, _ => Ok None
  end).

(** The list [metrics] at the call of [save_metrics]. *)
Definition position_metrics (timestamp : datetime) (prices : option RateTable)
    (values : option (list PositionDto.t)) : res (list Metric) :=
  res_bind (collect (position_upl timestamp prices) (default [] values)) (fun upl =>
  res_bind (collect (position_qty timestamp prices) (default [] values)) (fun qty =>
  Ok (upl ++ qty))).

Definition position_body (ctx : Context) (timestamp : datetime)
    (prices : option RateTable) : M unit :=
  lift_bind (fetch_positions ctx timestamp) (fun values =>
  lift_bind (position_metrics timestamp prices values) (fun metrics =>
  save_metrics ctx metrics)).

Definition process_position (ctx : Context) (timestamp : datetime)
    (prices : option RateTable) : M unit :=
  try_except "Position" (position_body ctx timestamp prices).

(** ** Transaction metrics ([process_transaction_trade], [process_transaction_volume]) *)

(** [for key, val in windows.items(): values = fetch_transactions(val, timestamp);
    for dto in values: ...], the metrics of all windows in one list. *)
Fixpoint collect_windows (ctx : Context) (timestamp : datetime)
    (f : string -> TransactionDto.t -> res (option Metric))
    (windows : list (string * datetime)) : res (list Metric) :=
  match windows with
  | [] => Ok []
  | (key, val) :: rest =>
      res_bind (fetch_transactions ctx val timestamp) (fun values =>
      res_bind (collect (f key) (default [] values)) (fun metrics =>
      res_bind (collect_windows ctx timestamp f rest) (fun more =>
      Ok (metrics ++ more))))
  end.

Definition trade_metric (timestamp : datetime) (prices : option RateTable)
    (key : string) (dto : TransactionDto.t) : res (option Metric) :=
  let inst_qty := TransactionDto.tx_net_inst dto in
  let fund_qty := TransactionDto.tx_net_fund dto in
  res_bind (_calculate_evaluation (TransactionDto.ev_inst dto) prices) (fun inst_rate =>
  res_bind (_calculate_evaluation (TransactionDto.ev_fund dto) prices) (fun fund_rate =>
  match TransactionDto.product dto, inst_qty, fund_qty, inst_rate, fund_rate with
  | Some product, Some inst_qty, Some fund_qty, Some inst_rate, Some fund_rate =>
      Ok (Some (mk_Metric ("trade@" +:+ key) (pr_disp product) timestamp
                          ((inst_qty * inst_rate) + (fund_qty * fund_rate))%Qc))
  | _, _, _, _, _ => Ok None
  end)).

Definition trade_windows (timestamp : datetime) (offset : Z)
    : list (string * datetime) :=
  let t := add_minutes timestamp offset in
  [ ("DAY", sub_minutes (replace_midnight t) offset);
    ("MTD", sub_minutes (replace_month_start t) offset);
    ("YTD", sub_minutes (replace_year_start t) offset) ].

Definition trade_metrics (ctx : Context) (timestamp : datetime)
    (prices : option RateTable) : res (list Metric) :=
  res_bind (py_int (get_property ctx _ID "offset" (Some (9 * 60)))) (fun offset =>
  collect_windows ctx timestamp (trade_metric timestamp prices)
    (trade_windows timestamp offset)).

Definition process_transaction_trade (ctx : Context) (timestamp : datetime)
    (prices : option RateTable) : M unit :=
  try_except "Transaction (trade)"
    (lift_bind (trade_metrics ctx timestamp prices) (fun metrics =>
     save_metrics ctx metrics)).

Definition volume_metric (timestamp : datetime) (prices : option RateTable)
    (key : string) (dto : TransactionDto.t) : res (option Metric) :=
  let amount := TransactionDto.tx_grs_fund dto in
  res_bind (_calculate_evaluation (TransactionDto.ev_fund dto) prices) (fun rate =>
  match TransactionDto.product dto, amount, rate with
  | Some product, Some amount, Some rate =>
      Ok (Some (mk_Metric ("volume@" +:+ key) (pr_disp product) timestamp
                          (amount * rate)%Qc))
  | _, _, _ => Ok None
  end).

Definition volume_windows (timestamp : datetime) : list (string * datetime) :=
  [ ("12H", sub_hours timestamp 12);
    ("01D", sub_hours timestamp 24);
    ("30D", sub_days timestamp 30) ].

Definition volume_metrics (ctx : Context) (timestamp : datetime)
    (prices : option RateTable) : res (list Metric) :=
  collect_windows ctx timestamp (volume_metric timestamp prices)
    (volume_windows timestamp).

Definition process_transaction_volume (ctx : Context) (timestamp : datetime)
    (prices : option RateTable) : M unit :=
  try_except "Transaction (volume)"
    (lift_bind (volume_metrics ctx timestamp prices) (fun metrics =>
     save_metrics ctx metrics)).

(** ** The snapshot fan-out ([process_metric]) *)

Inductive target :=
| Tprocess_balance
| Tprocess_position
| Tprocess_transaction_trade
| Tprocess_transaction_volume.

(** [Thread(target=..., args=(timestamp, prices))]. *)
Record thread := Thread {
  th_target : target;
  th_timestamp : datetime;
  th_prices : option RateTable
}.

Definition run (ctx : Context) (th : thread) : M unit :=
  match th_target th with
  | Tprocess_balance => process_balance ctx (th_timestamp th) (th_prices th)
  | Tprocess_position => process_position ctx (th_timestamp th) (th_prices th)
  | Tprocess_transaction_trade =>
      process_transaction_trade ctx (th_timestamp th) (th_prices th)
  | Tprocess_transaction_volume =>
      process_transaction_volume ctx (th_timestamp th) (th_prices th)
  end.

(** The threads run to completion one after the other, in the order given;
    what a thread raises dies with the thread. *)
Fixpoint run_threads (ctx : Context) (threads : list thread) (st : State) : State :=
  match threads with
  | [] => st
  | th :: rest => run_threads ctx rest (snd (run ctx th st))
  end.

(** The first loop of [process_metric]: the tickers of each timestamp are
    processed at once, the four builders are only prepared. *)
Fixpoint spawn (ctx : Context) (timestamps : list datetime) (st : State)
    : list thread * State :=
  match timestamps with
  | [] => ([], st)
  | timestamp :: rest =>
      let '(prices, st1) := process_ticker ctx timestamp st in
      let '(threads, st2) := spawn ctx rest st1 in
      ([ Thread Tprocess_balance timestamp prices;
         Thread Tprocess_position timestamp prices;
         Thread Tprocess_transaction_trade timestamp prices;
         Thread Tprocess_transaction_volume timestamp prices ] ++ threads, st2)
  end.

(** [schedule] is the order in which the started threads happen to perform
    their work; each of them makes at most one storage call, so an
    interleaving of the threads is an ordering of them. *)
Definition process_metric (ctx : Context) (schedule : list thread -> list thread)
    (default_time : option datetime) (default_count : Z) : M unit :=
  fun st =>
    let base_time := match default_time with
                     | Some t => t
                     | None => get_now ctx
                     end in
    match py_int (get_property ctx _ID "timestamp" (Some default_count)) with
    | Raise e => (Raise e, st)
    | Ok count =>
        let timestamps :=
          map (fun i => sub_minutes (replace_second0 base_time) i) (seqZ 0 count) in
        let '(threads, st1) := spawn ctx timestamps st in
        (Ok tt, run_threads ctx (schedule threads) st1)
    end.

(** ** The purge ([purge_metric]) *)

Definition default_intervals : list (Z * list Z) :=
  [ (24 * 365 * 8, []);
    (48, [0]);
    (36, map (fun i => i * 30) (seqZ 0 2));
    (24, map (fun i => i * 15) (seqZ 0 4));
    (12, map (fun i => i * 5) (seqZ 0 12)) ].

(** The first and the last microsecond a [datetime] can hold: 0001-01-01
    00:00:00 and 9999-12-31 23:59:59.999999. *)
Definition min_wall : Z := days_from_civil 1 1 1 * usec_per_day.
Definition max_wall : Z := (days_from_civil 9999 12 31 + 1) * usec_per_day - 1.

(** [timedelta(hours=h)], in microseconds: the days of a [timedelta] have
    a magnitude of at most 999999999. *)
Definition timedelta_hours (h : Z) : res Z :=
  if bool_decide (-999999999 <= h / 24 <= 999999999)
  then Ok (h * usec_per_hour)
  else Raise OverflowError.

(** [dt - delta]: the result has to be a date of the years 1 to 9999. *)
Definition datetime_sub (dt : datetime) (delta : Z) : res datetime :=
  let w := wall dt - delta in
  if bool_decide (min_wall <= w <= max_wall)
  then Ok (mk_datetime w (utcoffset dt))
  else Raise OverflowError.

(** [for idx, entry in enumerate(intervals): ...], from index [idx] on.
    The closing [logger.debug] line is not recorded. *)
Fixpoint purge_loop (ctx : Context) (now : datetime) (idx : nat)
    (intervals : list (Z * list Z)) : M unit :=
  fun st =>
    match intervals with
    | [] => (Ok tt, st)
    | entry :: rest =>
        let hours := get_property ctx _ID ("purge_" +:+ pretty idx) (Some (fst entry)) in
        match hours with
        | None => purge_loop ctx now (S idx) rest st
        | Some _ =>
            match py_int hours with
            | Raise e => (Raise e, st)
            | Ok h =>
                match res_bind (timedelta_hours (Z.max h 1)) (datetime_sub now) with
                | Raise e => (Raise e, st)
                | Ok cutoff =>
                    match delete_metrics ctx cutoff (snd entry) st with
                    | (Raise e, st') => (Raise e, st')
                    | (Ok count, st') => purge_loop ctx now (S idx) rest st'
                    end
                end
            end
        end
    end.

Definition purge_metric (ctx : Context) (intervals : list (Z * list Z)) : M unit :=
  let now := get_now ctx in
  purge_loop ctx now 0 intervals.

(** ** Vocabulary of the statements *)

(** A price field is present when it holds a non-zero value. *)
Definition nonzero (x : option Decimal) : option Decimal :=
  match x with
  | Some v => if bool_decide (v = _ZERO) then None else Some v
  | None => None
  end.

(** The last ticker of a batch quoted for [(site, code)]. *)
Definition quoted_for (site code : string) (dto : TickerDto.t) : Prop :=
  tk_site (TickerDto.ticker dto) = site ∧ tk_code (TickerDto.ticker dto) = code.

#[global] Instance quoted_for_dec site code dto : Decision (quoted_for site code dto).
Proof. unfold quoted_for. apply _. Defined.

Definition last_ticker (site code : string) (tickers : list TickerDto.t)
    : option Ticker :=
  TickerDto.ticker <$> list.last (filter (quoted_for site code) tickers).

(** A ticker record without product and evaluation, quoted at 2018-03-15 10:30 UTC. *)
Definition quote (site code : string) (ask bid ltp : Z) : TickerDto.t :=
  TickerDto.mk
    (mk_Ticker site code (civil 2018 3 15 10 30 0)
               (Some (dec ask)) (Some (dec bid)) (Some (dec ltp)))
    None None.

(** The legs of a chain that are configured, the ticker leg first. *)
Definition configured_legs (ev : Evaluation) : list (string * string) :=
  match ev_ticker_site ev, ev_ticker_code ev with
  | Some s, Some c => [(s, c)]
  | _, _ => []
  end ++
  match ev_convert_site ev, ev_convert_code ev with
  | Some s, Some c => [(s, c)]
  | _, _ => []
  end.

(** A leg that is not configured: its site or its code is null. *)
Definition unconfigured (site code : option string) : Prop :=
  site = None ∨ code = None.

(** The table holds the non-zero price [p] for the leg. *)
Definition leg_resolves (table : RateTable) (leg : string * string)
    (p : Decimal) : Prop :=
  ∃ codes, table !! leg.1 = Some codes ∧ codes !! leg.2 = Some (Some p) ∧ p ≠ _ZERO.

(** The site is absent, or the code is absent, or the stored price is null
    or zero. *)
Definition leg_fails (table : RateTable) (leg : string * string) : Prop :=
  table !! leg.1 = None
  ∨ ∃ codes, table !! leg.1 = Some codes
      ∧ (codes !! leg.2 = None
         ∨ codes !! leg.2 = Some None
         ∨ codes !! leg.2 = Some (Some _ZERO)).

(** The price a leg contributes, if it resolves. *)
Definition leg_price (table : RateTable) (leg : string * string) : option Decimal :=
  nonzero (table !! leg.1 ≫= fun codes => dict_get codes leg.2).

(** The product accumulated by the evaluator, starting from [_ONE]. *)
Definition product_of (ps : list Decimal) : Decimal := foldl Qcmult _ONE ps.

(** The multiplier of a chain on a table that exists. *)
Definition rate_of (table : RateTable) (evaluation : option Evaluation)
    : option Decimal :=
  match evaluation with
  | None => None
  | Some ev => product_of <$> mapM (leg_price table) (configured_legs ev)
  end.

(** siteA quotes BTC at 2 and siteB quotes USD at 3; siteB also lists JPY
    without a price and EUR at zero. *)
Definition table23 : RateTable :=
  setitem2 (setitem2 (setitem2 (setitem2 ∅
    "siteA" "BTC" (Some (dec 2)))
    "siteB" "USD" (Some (dec 3)))
    "siteB" "JPY" None)
    "siteB" "EUR" (Some (dec 0)).

Definition chain (ts tc cs cc : option string) : option Evaluation :=
  Some (mk_Evaluation ts tc cs cc).

(** What one pass of a loop body contributes once it has not raised. *)
Definition emitted (r : res (option Metric)) : option Metric :=
  match r with
  | Ok o => o
  | Raise _ => None
  end.

(** A product that has not expired before [timestamp]. *)
Definition not_expired (product : Product) (timestamp : datetime) : Prop :=
  match pr_expr product with
  | Some expiry => wall timestamp - utcoffset timestamp <= wall expiry - utcoffset expiry
  | None => True
  end.

(** A context whose storage is empty and never fails, with no property
    overridden. *)
Definition quiet_context (now : datetime) : Context :=
  mk_Context now (fun _ _ default => default)
    (fun _ _ => Ok None) (fun _ => Ok None) (fun _ => Ok None) (fun _ _ => Ok None)
    (fun _ => Ok tt) (fun _ _ => Ok 0).

Definition set_get_property (ctx : Context)
    (f : string -> string -> option Z -> option Z) : Context :=
  mk_Context (get_now ctx) f (fetch_tickers ctx) (fetch_balances ctx)
    (fetch_positions ctx) (fetch_transactions ctx)
    (save_metrics_result ctx) (delete_metrics_result ctx).

Definition set_fetch_tickers (ctx : Context)
    (f : datetime -> bool -> res (option (list TickerDto.t))) : Context :=
  mk_Context (get_now ctx) (get_property ctx) f (fetch_balances ctx)
    (fetch_positions ctx) (fetch_transactions ctx)
    (save_metrics_result ctx) (delete_metrics_result ctx).

Definition set_fetch_balances (ctx : Context)
    (f : datetime -> res (option (list BalanceDto.t))) : Context :=
  mk_Context (get_now ctx) (get_property ctx) (fetch_tickers ctx) f
    (fetch_positions ctx) (fetch_transactions ctx)
    (save_metrics_result ctx) (delete_metrics_result ctx).

Definition set_fetch_positions (ctx : Context)
    (f : datetime -> res (option (list PositionDto.t))) : Context :=
  mk_Context (get_now ctx) (get_property ctx) (fetch_tickers ctx) (fetch_balances ctx)
    f (fetch_transactions ctx)
    (save_metrics_result ctx) (delete_metrics_result ctx).

Definition set_fetch_transactions (ctx : Context)
    (f : datetime -> datetime -> res (option (list TransactionDto.t))) : Context :=
  mk_Context (get_now ctx) (get_property ctx) (fetch_tickers ctx) (fetch_balances ctx)
    (fetch_positions ctx) f
    (save_metrics_result ctx) (delete_metrics_result ctx).

Definition empty_state : State := mk_State [] [].

(** The snapshot of the examples: 2018-03-15 10:30 UTC. *)
Definition snapshot : datetime := civil 2018 3 15 10 30 0.

(** BTC quoted 10/12 on siteA at the given minute of 2018-03-15 10h UTC,
    for a product without expiry and an evaluation with no leg. *)
Definition btc_quote (minute : Z) : TickerDto.t :=
  TickerDto.mk
    (mk_Ticker "siteA" "BTC" (civil 2018 3 15 10 minute 0)
               (Some (dec 10)) (Some (dec 12)) None)
    (Some (mk_Product "BTC/USD" None))
    (chain None None None None).

(** A position of 5 (fund) and 7 (instrument) whose fund chain resolves on
    [table23] and whose instrument chain points to a code without quote. *)
Definition btc_position : PositionDto.t :=
  PositionDto.mk (mk_Position (Some (dec 5)) (Some (dec 7)))
    (Some (mk_Product "BTC/USD" None))
    (chain (Some "siteA") (Some "BTC") None None)
    (chain (Some "siteA") (Some "XRP") None None).

(** A transaction whose two chains resolve and whose two net quantities are
    set, with or without its product. *)
Definition btc_transaction (product : option Product) : TransactionDto.t :=
  TransactionDto.mk (Some (dec 4)) (Some (dec (-9))) (Some (dec 9))
    (chain (Some "siteA") (Some "BTC") None None)
    (chain (Some "siteB") (Some "USD") None None)
    product.

(** The storage call planned for one retention tier: none when its
    threshold is null, otherwise one bulk delete of what is older than
    [max(h, 1)] hours (of 3600000000 microseconds), in the zone of [now]. *)
Definition tier (ctx : Context) (idx : nat) (hours : Z) (minutes : list Z)
    : list call :=
  match get_property ctx _ID ("purge_" +:+ pretty idx) (Some hours) with
  | None => []
  | Some h =>
      [DeleteMetrics
         (mk_datetime (wall (get_now ctx) - Z.max h 1 * 3600000000)
                      (utcoffset (get_now ctx)))
         minutes]
  end.

(** The cutoff of a planned delete can be computed: its distance from [now]
    is at most 999999999 days and it is a date of the years 1 to 9999. *)
Definition cutoff_in_range (now : datetime) (c : call) : Prop :=
  match c with
  | DeleteMetrics cutoff _ =>
      -999999999 <= (wall now - wall cutoff) / 3600000000 / 24 <= 999999999
      ∧ -62135596800000000 <= wall cutoff <= 253402300799999999
  | SaveMetrics _ => False
  end.

Fixpoint tiers_from (ctx : Context) (idx : nat) (intervals : list (Z * list Z))
    : list call :=
  match intervals with
  | [] => []
  | entry :: rest => tier ctx idx (fst entry) (snd entry) ++ tiers_from ctx (S idx) rest
  end.


(** The storage call a builder makes for the list it has collected: none
    when collecting raised. *)
Definition saved (metrics : res (list Metric)) : list call :=
  match metrics with
  | Ok ms => [SaveMetrics ms]
  | Raise _ => []
  end.

Definition ticker_metrics (ctx : Context) (timestamp : datetime) : res (list Metric) :=
  res_bind (fetch_tickers ctx timestamp true) (fun values =>
  collect (_convert_ticker ctx timestamp (_calculate_prices values)) (default [] values)).

Definition ticker_prices (ctx : Context) (timestamp : datetime) : option RateTable :=
  match fetch_tickers ctx timestamp true with
  | Ok values => Some (_calculate_prices values)
  | Raise _ => None
  end.

Definition balance_metrics (ctx : Context) (timestamp : datetime)
    (prices : option RateTable) : res (list Metric) :=
  res_bind (fetch_balances ctx timestamp) (fun values =>
  collect (balance_metric timestamp prices) (default [] values)).

Definition thread_metrics (ctx : Context) (th : thread) : res (list Metric) :=
  match th_target th with
  | Tprocess_balance => balance_metrics ctx (th_timestamp th) (th_prices th)
  | Tprocess_position =>
      res_bind (fetch_positions ctx (th_timestamp th))
               (position_metrics (th_timestamp th) (th_prices th))
  | Tprocess_transaction_trade => trade_metrics ctx (th_timestamp th) (th_prices th)
  | Tprocess_transaction_volume => volume_metrics ctx (th_timestamp th) (th_prices th)
  end.

Definition thread_calls (ctx : Context) (th : thread) : list call :=
  saved (thread_metrics ctx th).

(** The threads prepared for a list of timestamps, and the storage calls
    made for their tickers. *)
Definition threads_of (ctx : Context) (timestamps : list datetime) : list thread :=
  flat_map (fun timestamp =>
              let prices := ticker_prices ctx timestamp in
              [ Thread Tprocess_balance timestamp prices;
                Thread Tprocess_position timestamp prices;
                Thread Tprocess_transaction_trade timestamp prices;
                Thread Tprocess_transaction_volume timestamp prices ])
           timestamps.

Definition ticker_calls (ctx : Context) (timestamps : list datetime) : list call :=
  flat_map (fun timestamp => saved (ticker_metrics ctx timestamp)) timestamps.

Definition snapshot_timestamps (ctx : Context) (default_time : option datetime)
    (count : Z) : list datetime :=
  map (fun i => sub_minutes (replace_second0 (default (get_now ctx) default_time)) i)
      (seqZ 0 count).

#[global] Instance target_eq_dec : EqDecision target.
Proof. solve_decision. Defined.

Definition other_than_position (th : thread) : Prop :=
  th_target th ≠ Tprocess_position.

#[global] Instance other_than_position_dec th : Decision (other_than_position th).
Proof. unfold other_than_position. apply _. Defined.

(** The end-to-end scenario: siteA quotes BTC 100/102 at the snapshot
    minute, and an account holds 5 BTC valued through the ticker leg
    (siteA, BTC). *)
Definition scenario_ticker : TickerDto.t :=
  TickerDto.mk
    (mk_Ticker "siteA" "BTC" snapshot (Some (dec 100)) (Some (dec 102)) (Some (dec 0)))
    (Some (mk_Product "BTC/USD" None))
    (chain None None None None).

Definition scenario_balance : BalanceDto.t :=
  BalanceDto.mk (mk_Balance (Some (dec 5))) (Some (mk_Account "wallet"))
    (chain (Some "siteA") (Some "BTC") None None).

Definition scenario_context : Context :=
  set_get_property
    (set_fetch_balances
       (set_fetch_tickers (quiet_context snapshot)
          (fun _ _ => Ok (Some [scenario_ticker])))
       (fun _ => Ok (Some [scenario_balance])))
    (fun section key default =>
       if String.eqb key "timestamp" then Some 1 else default).

#[global] Instance datetime_eq_dec : EqDecision datetime.
Proof. solve_decision. Defined.

#[global] Instance Metric_eq_dec : EqDecision Metric.
Proof. solve_decision. Defined.

#[global] Instance call_eq_dec : EqDecision call.
Proof. solve_decision. Defined.

#[global] Instance exn_eq_dec : EqDecision exn.
Proof. solve_decision. Defined.


(** ** The periodic loop ([_wrap]) *)

(** [while not is_closed(): try: func() except BaseException as e: warn(...);
    sleep(interval)].  [is_closed k] is the answer of the context to the
    poll number [k]; [sleep] leaves the storage alone.  The loop is cut off
    after [fuel] polls. *)
Fixpoint _wrap (is_closed : nat -> bool) (func : M unit) (name : string)
    (fuel poll : nat) (st : State) : option State :=
  match fuel with
  | O => None
  | S fuel' =>
      if is_closed poll then Some st
      else
        let st' := match func st with
                   | (Ok _, st') => st'
                   | (Raise e, st') => warn name e st'
                   end in
        _wrap is_closed func name fuel' (S poll) st'
  end.

(** ** Further vocabulary *)

(** The kinds of metric a builder thread can save. *)
Definition kinds_of (t : target) : list string :=
  match t with
  | Tprocess_balance => ["balance"]
  | Tprocess_position => ["position@upl"; "position@qty"]
  | Tprocess_transaction_trade => ["trade@DAY"; "trade@MTD"; "trade@YTD"]
  | Tprocess_transaction_volume => ["volume@12H"; "volume@01D"; "volume@30D"]
  end.

(** The storage calls and the warnings a run has added to a state. *)
Definition new_calls (before after : State) : list call :=
  drop (length (calls before)) (calls after).

Definition new_warnings (before after : State) : list (string * exn) :=
  drop (length (warnings before)) (warnings after).

(** A delete call whose cutoff lies at least one hour before [now]. *)
Definition deletes_older_than_an_hour (now : datetime) (c : call) : Prop :=
  match c with
  | DeleteMetrics cutoff _ =>
      wall cutoff <= wall now - usec_per_hour ∧ utcoffset cutoff = utcoffset now
  | SaveMetrics _ => False
  end.

(** A context whose bulk delete always raises. *)
Definition set_delete_metrics_result (ctx : Context)
    (f : datetime -> list Z -> res Z) : Context :=
  mk_Context (get_now ctx) (get_property ctx) (fetch_tickers ctx) (fetch_balances ctx)
    (fetch_positions ctx) (fetch_transactions ctx)
    (save_metrics_result ctx) f.

(** A position whose two chains have no leg, and one whose instrument
    chain has a leg. *)
Definition plain_position : PositionDto.t :=
  PositionDto.mk (mk_Position (Some (dec 5)) (Some (dec 7)))
    (Some (mk_Product "BTC/USD" None))
    (chain None None None None)
    (chain None None None None).

(** The scenario's ticker with its quote time read in another zone. *)
Definition scenario_ticker_in (offset_minutes : Z) : TickerDto.t :=
  TickerDto.mk
    (mk_Ticker "siteA" "BTC"
       (mk_datetime (wall snapshot) (offset_minutes * usec_per_minute))
       (Some (dec 100)) (Some (dec 102)) (Some (dec 0)))
    (Some (mk_Product "BTC/USD" None))
    (chain None None None None).

#[global] Instance res_eq_dec {A} `{EqDecision A} : EqDecision (res A).
Proof. solve_decision. Defined.

(** A transaction of gross fund quantity 9 valued through (siteB, USD). *)
Definition usd_volume : TransactionDto.t :=
  TransactionDto.mk None None (Some (dec 9)) None
    (chain (Some "siteB") (Some "USD") None None)
    (Some (mk_Product "BTC/USD" None)).

(** A call that is a save. *)
Definition is_save (c : call) : Prop :=
  match c with
  | SaveMetrics _ => True
  | DeleteMetrics _ _ => False
  end.

(** A bulk delete that the storage carries out. *)
Definition delete_succeeds (ctx : Context) (c : call) : Prop :=
  match c with
  | DeleteMetrics cutoff minutes =>
      ∃ count, delete_metrics_result ctx cutoff minutes = Ok count
  | SaveMetrics _ => False
  end.

(** A bulk delete on which the storage raises [e]. *)
Definition delete_raises (ctx : Context) (e : exn) (c : call) : Prop :=
  match c with
  | DeleteMetrics cutoff minutes => delete_metrics_result ctx cutoff minutes = Raise e
  | SaveMetrics _ => False
  end.

(** A storage that refuses every delete whose cutoff is less than two days
    back from the snapshot. *)
Definition refuse_recent (cutoff : datetime) (minutes : list Z) : res Z :=
  if wall snapshot - 48 * usec_per_hour <? wall cutoff
  then Raise (StorageError "delete")
  else Ok 0.
(** * Properties *)

(** ** Decimals *)

Lemma Qc_eq_by_value (x y : Qc) : Qeq_bool (this x) (this y) = true -> x = y.
Proof. intros H. apply Qc_is_canon, Qeq_bool_iff, H. Qed.

Lemma half_is_half (x : Qc) : (x * _HALF = x / 2)%Qc.
Proof.
  assert (H : _HALF = (/ 2)%Qc) by (apply Qc_eq_by_value; reflexivity).
  rewrite H. reflexivity.
Qed.

Lemma py_ne_nonzero (x : option Decimal) :
  (if py_ne x _ZERO then x else None) = nonzero x.
Proof.
  destruct x as [v|]; simpl; [|reflexivity].
  destruct (decide (v = _ZERO)) as [E|E].
  - rewrite (bool_decide_eq_false_2 _ (fun H => H E)).
    now rewrite (bool_decide_eq_true_2 _ E).
  - rewrite (bool_decide_eq_true_2 _ E).
    now rewrite (bool_decide_eq_false_2 _ E).
Qed.

(** Closed goals on concrete data are decided by evaluation. *)
Ltac by_evaluation := apply (bool_decide_unpack _); vm_compute; exact I.

(** ** The rate table *)

Lemma ticker_price_table (t : Ticker) :
  ticker_price t =
    match nonzero (tk_ask t), nonzero (tk_bid t), nonzero (tk_ltp t) with
    | Some a, Some b, _ => Some ((a + b) / 2)%Qc
    | Some a, None, Some l => Some ((a + l) / 2)%Qc
    | None, Some b, Some l => Some ((b + l) / 2)%Qc
    | Some a, None, None => Some a
    | None, Some b, None => Some b
    | None, None, Some l => Some l
    | None, None, None => None
    end.
Proof.
  unfold ticker_price. rewrite !py_ne_nonzero.
  destruct (nonzero (tk_ask t)), (nonzero (tk_bid t)), (nonzero (tk_ltp t));
    simpl; rewrite ?half_is_half; reflexivity.
Qed.

Lemma price_of_setitem2 (prices : RateTable) site code price site' code' :
  price_of (setitem2 prices site code price) site' code' =
    if decide (site = site' ∧ code = code') then price
    else price_of prices site' code'.
Proof.
  unfold price_of, setitem2, dict_get.
  destruct (decide (site = site')) as [->|Hs].
  - rewrite lookup_insert_eq. simpl.
    destruct (decide (code = code')) as [->|Hc].
    + rewrite lookup_insert_eq. simpl. rewrite decide_True by done. done.
    + rewrite lookup_insert_ne by done. rewrite decide_False by (intros [? ?]; congruence). done.
  - rewrite lookup_insert_ne by done. rewrite decide_False by (intros [? ?]; congruence). done.
Qed.

Lemma has_entry_setitem2 (prices : RateTable) site code price site' code' :
  has_entry (setitem2 prices site code price) site' code' =
    if decide (site = site' ∧ code = code') then true
    else has_entry prices site' code'.
Proof.
  unfold has_entry, setitem2.
  destruct (decide (site = site')) as [->|Hs].
  - rewrite lookup_insert_eq. simpl.
    destruct (decide (code = code')) as [->|Hc].
    + rewrite lookup_insert_eq, decide_True by done.
      apply bool_decide_eq_true_2. eauto.
    + rewrite lookup_insert_ne by done. rewrite decide_False by (intros [? ?]; congruence). done.
  - rewrite lookup_insert_ne by done. rewrite decide_False by (intros [? ?]; congruence). done.
Qed.

Lemma calculate_prices_snoc (tickers : list TickerDto.t) (dto : TickerDto.t) :
  _calculate_prices (Some (tickers ++ [dto])) =
    setitem2 (_calculate_prices (Some tickers))
      (tk_site (TickerDto.ticker dto)) (tk_code (TickerDto.ticker dto))
      (ticker_price (TickerDto.ticker dto)).
Proof. unfold _calculate_prices. simpl. now rewrite fold_left_app. Qed.

Lemma last_ticker_snoc site code (tickers : list TickerDto.t) dto :
  last_ticker site code (tickers ++ [dto]) =
    if decide (quoted_for site code dto) then Some (TickerDto.ticker dto)
    else last_ticker site code tickers.
Proof.
  unfold last_ticker. rewrite list.filter_app.
  destruct (decide (quoted_for site code dto)) as [H|H].
  - rewrite (filter_cons_True _ _ _ H), filter_nil.
    now rewrite last_snoc.
  - rewrite (filter_cons_False _ _ _ H), filter_nil.
    now rewrite app_nil_r.
Qed.

(** Ask 10 and bid 12 give 11; a last-traded price of 20 does not enter the
    mean; a lone last-traded price of 9 is taken as it is; all zero gives
    no price. *)
Example ticker_price_ask_bid :
  ticker_price (TickerDto.ticker (quote "siteA" "BTC" 10 12 0)) = Some (dec 11).
Proof. by_evaluation. Qed.

Example ticker_price_first_two_of_three :
  ticker_price (TickerDto.ticker (quote "siteA" "BTC" 10 12 20)) = Some (dec 11).
Proof. by_evaluation. Qed.

Example ticker_price_last_only :
  ticker_price (TickerDto.ticker (quote "siteA" "BTC" 0 0 9)) = Some (dec 9).
Proof. by_evaluation. Qed.

Example ticker_price_none :
  ticker_price (TickerDto.ticker (quote "siteA" "BTC" 0 0 0)) = None.
Proof. by_evaluation. Qed.

(** C1, as amended.  For every batch of ticker records and every
    [(site, code)]: the price read from the table is the one computed for the
    last record of the batch quoted for that key (last write wins), and the
    key is bound exactly when the batch has such a record.  The price
    computed for a record treats ask, bid and last-traded as present iff
    they hold a non-zero value; it is the mean of the first two present
    fields in the order ask, bid, last-traded, the only present field when
    there is one, and null when there is none: that null is written like any
    other price, so it replaces an earlier price of the same key. *)
Theorem calculate_prices_last_write_wins
    (tickers : list TickerDto.t) (site code : string) :
  price_of (_calculate_prices (Some tickers)) site code
    = last_ticker site code tickers ≫= ticker_price
  ∧ has_entry (_calculate_prices (Some tickers)) site code
    = bool_decide (is_Some (last_ticker site code tickers))
  ∧ ∀ t : Ticker,
      ticker_price t =
        match nonzero (tk_ask t), nonzero (tk_bid t), nonzero (tk_ltp t) with
        | Some a, Some b, _ => Some ((a + b) / 2)%Qc
        | Some a, None, Some l => Some ((a + l) / 2)%Qc
        | None, Some b, Some l => Some ((b + l) / 2)%Qc
        | Some a, None, None => Some a
        | None, Some b, None => Some b
        | None, None, Some l => Some l
        | None, None, None => None
        end.
Proof.
  split; [|split; [|apply ticker_price_table]].
  - induction tickers as [|dto tickers IH] using rev_ind; [reflexivity|].
    rewrite calculate_prices_snoc, price_of_setitem2, last_ticker_snoc.
    unfold quoted_for in *.
    destruct (decide _) as [H|H]; [reflexivity|exact IH].
  - induction tickers as [|dto tickers IH] using rev_ind; [reflexivity|].
    rewrite calculate_prices_snoc, has_entry_setitem2, last_ticker_snoc.
    unfold quoted_for in *.
    destruct (decide _) as [H|H]; [|exact IH].
    symmetry. apply bool_decide_eq_true_2. eauto.
Qed.

(** C1, as stated, fails: a record with no present price does contribute an
    entry.  After a record quoted 10/12 and a later all-zero record for the
    same key, the key is bound and reads null, where the first record alone
    reads 11. *)
Lemma calculate_prices_blank_record_overwrites :
  ticker_price (TickerDto.ticker (quote "siteA" "BTC" 0 0 0)) = None
  ∧ has_entry (_calculate_prices (Some [quote "siteA" "BTC" 0 0 0]))
      "siteA" "BTC" = true
  ∧ price_of (_calculate_prices (Some [quote "siteA" "BTC" 10 12 0]))
      "siteA" "BTC" = Some (dec 11)
  ∧ price_of (_calculate_prices
                (Some [quote "siteA" "BTC" 10 12 0; quote "siteA" "BTC" 0 0 0]))
      "siteA" "BTC" = None.
Proof. repeat split; by_evaluation. Qed.

(** ** The evaluator *)

Lemma leg_price_resolves (table : RateTable) leg p :
  leg_price table leg = Some p <-> leg_resolves table leg p.
Proof.
  unfold leg_price, leg_resolves, nonzero, dict_get.
  destruct (table !! leg.1) as [codes|]; simpl.
  - destruct (codes !! leg.2) as [[v|]|] eqn:E; simpl.
    + case_bool_decide as Hz; split.
      * discriminate.
      * intros (c & [= <-] & Hv & Hp). congruence.
      * intros [= ->]. eauto.
      * intros (c & [= <-] & Hv & Hp). congruence.
    + split; [discriminate|]. intros (c & [= <-] & Hv & _). congruence.
    + split; [discriminate|]. intros (c & [= <-] & Hv & _). congruence.
  - split; [discriminate|]. intros (c & Hc & _). discriminate.
Qed.

Lemma leg_price_fails (table : RateTable) leg :
  leg_price table leg = None <-> leg_fails table leg.
Proof.
  unfold leg_price, leg_fails, nonzero, dict_get.
  destruct (table !! leg.1) as [codes|]; simpl.
  - destruct (codes !! leg.2) as [[v|]|] eqn:E; simpl.
    + case_bool_decide as Hz; split.
      * intros _. right. exists codes. subst v. auto.
      * reflexivity.
      * discriminate.
      * intros [H|(c & [= <-] & [H|[H|H]])]; congruence.
    + split; [|reflexivity]. intros _. right. eauto.
    + split; [|reflexivity]. intros _. right. eauto.
  - split; [|reflexivity]. intros _. now left.
Qed.

Lemma eval_leg_configured (table : RateTable) s c price :
  eval_leg (Some table) (Some s) (Some c) price =
    Ok ((fun p => (price * p)%Qc) <$> leg_price table (s, c)).
Proof.
  unfold eval_leg, leg_price, nonzero. simpl.
  destruct (table !! s) as [codes|]; simpl; [|reflexivity].
  destruct (dict_get codes c) as [p|]; simpl; [|reflexivity].
  now case_bool_decide.
Qed.

Lemma eval_leg_unconfigured prices site code price :
  unconfigured site code -> eval_leg prices site code price = Ok (Some price).
Proof. intros [-> | ->]; [reflexivity|]. now destruct site. Qed.

Lemma eval_leg_table (table : RateTable) site code price :
  eval_leg (Some table) site code price =
    Ok match site, code with
       | Some s, Some c => (fun p => (price * p)%Qc) <$> leg_price table (s, c)
       | _, _ => Some price
       end.
Proof.
  destruct site as [s|], code as [c|];
    [apply eval_leg_configured | reflexivity..].
Qed.

(** On a table that exists the evaluator does not raise, and its result is
    the product over the configured legs. *)
Lemma calculate_evaluation_rate_of (evaluation : option Evaluation) (table : RateTable) :
  _calculate_evaluation evaluation (Some table) = Ok (rate_of table evaluation).
Proof.
  destruct evaluation as [[ts tc cs cc]|]; [|reflexivity].
  unfold _calculate_evaluation, rate_of, configured_legs, product_of.
  cbn [ev_ticker_site ev_ticker_code ev_convert_site ev_convert_code].
  rewrite eval_leg_table.
  destruct ts as [ts|], tc as [tc|];
    try destruct (leg_price table (ts, tc)) as [p|] eqn:Ep;
    cbn [fmap option_fmap option_map]; cbv beta iota;
    rewrite ?eval_leg_table;
    destruct cs as [cs|], cc as [cc|];
    try destruct (leg_price table (cs, cc)) as [q|] eqn:Eq;
    cbn [app mapM]; rewrite ?Ep, ?Eq; reflexivity.
Qed.

Lemma mapM_resolves (table : RateTable) legs ps :
  Forall2 (leg_resolves table) legs ps -> mapM (leg_price table) legs = Some ps.
Proof.
  intros H. apply mapM_Some. revert H. apply Forall2_impl.
  intros leg p. apply leg_price_resolves.
Qed.

Lemma mapM_fails (table : RateTable) legs leg :
  leg ∈ legs -> leg_fails table leg -> mapM (leg_price table) legs = None.
Proof.
  intros Hin Hf. apply mapM_None. apply list.Exists_exists.
  exists leg. split; [exact Hin|]. now apply leg_price_fails.
Qed.

(** C2.  For every chain and every rate table: with no configured leg the
    result is exactly 1; when every configured leg (ticker leg first,
    convert leg second) resolves to a stored non-zero price, the result is
    the product of those prices; and when some configured leg has its site
    absent from the table, its code absent, or a stored price that is null
    or zero, the result is none. *)
Theorem calculate_evaluation_product (ev : Evaluation) (table : RateTable) :
  (configured_legs ev = [] ->
     _calculate_evaluation (Some ev) (Some table) = Ok (Some _ONE))
  ∧ (∀ ps, Forall2 (leg_resolves table) (configured_legs ev) ps ->
       _calculate_evaluation (Some ev) (Some table) = Ok (Some (product_of ps)))
  ∧ (∀ leg, leg ∈ configured_legs ev -> leg_fails table leg ->
       _calculate_evaluation (Some ev) (Some table) = Ok None)
  ∧ (∀ p q : Decimal, product_of [p; q] = (p * q)%Qc ∧ product_of [p] = p).
Proof.
  rewrite calculate_evaluation_rate_of. unfold rate_of.
  repeat split.
  - intros ->. reflexivity.
  - intros ps H. now rewrite (mapM_resolves _ _ _ H).
  - intros leg Hin Hf. now rewrite (mapM_fails _ _ _ Hin Hf).
  - unfold product_of, _ONE. simpl. ring.
  - unfold product_of, _ONE. simpl. ring.
Qed.

(** The ticker leg resolves to 2 and the convert leg to 3: the multiplier
    is 6.  A convert leg on a missing code gives none whatever the ticker
    leg. *)
Lemma calculate_evaluation_product_witness :
  _calculate_evaluation
      (chain (Some "siteA") (Some "BTC") (Some "siteB") (Some "USD")) (Some table23)
    = Ok (Some (product_of [dec 2; dec 3]))
  ∧ product_of [dec 2; dec 3] = dec 6
  ∧ _calculate_evaluation
        (chain (Some "siteA") (Some "BTC") (Some "siteB") (Some "XRP")) (Some table23)
      = Ok None.
Proof.
  split; [|split].
  - apply (proj1 (proj2 (calculate_evaluation_product _ table23)) [dec 2; dec 3]).
    repeat constructor.
    + eexists. repeat split; [vm_compute; reflexivity..|by_evaluation].
    + eexists. repeat split; [vm_compute; reflexivity..|by_evaluation].
  - by_evaluation.
  - apply (proj1 (proj2 (proj2 (calculate_evaluation_product _ table23)))
             ("siteB", "XRP")).
    + by_evaluation.
    + right. eexists. split; [vm_compute; reflexivity|]. left. vm_compute. reflexivity.
Defined.

(** C9.  For every price table, also a missing one, a null chain evaluates
    to none and not to the identity multiplier; a chain object none of
    whose legs is configured evaluates to 1. *)
Theorem calculate_evaluation_null_chain (prices : option RateTable) :
  _calculate_evaluation None prices = Ok None
  ∧ _calculate_evaluation None prices ≠ Ok (Some _ONE)
  ∧ ∀ ev : Evaluation,
      unconfigured (ev_ticker_site ev) (ev_ticker_code ev) ->
      unconfigured (ev_convert_site ev) (ev_convert_code ev) ->
      _calculate_evaluation (Some ev) prices = Ok (Some _ONE).
Proof.
  repeat split; [discriminate|].
  intros ev Ht Hc. unfold _calculate_evaluation.
  rewrite (eval_leg_unconfigured _ _ _ _ Ht).
  now rewrite (eval_leg_unconfigured _ _ _ _ Hc).
Qed.

Lemma calculate_evaluation_null_chain_witness :
  _calculate_evaluation None (Some table23) = Ok None
  ∧ _calculate_evaluation (chain None None None None) (Some table23) = Ok (Some _ONE).
Proof.
  split.
  - apply (proj1 (calculate_evaluation_null_chain (Some table23))).
  - apply (proj2 (proj2 (calculate_evaluation_null_chain (Some table23))));
      left; reflexivity.
Defined.

(** C10.  A leg is configured only when both its site and its code are
    non-null.  For every chain and every price table (also a missing one,
    on which any lookup would raise), a leg with its site or its code null
    is skipped: the chain evaluates as the chain with that leg cleared, and
    with both legs so it evaluates to 1. *)
Theorem half_configured_leg_is_skipped (ev : Evaluation) (prices : option RateTable) :
  (unconfigured (ev_ticker_site ev) (ev_ticker_code ev) ->
     _calculate_evaluation (Some ev) prices
       = _calculate_evaluation
           (chain None None (ev_convert_site ev) (ev_convert_code ev)) prices)
  ∧ (unconfigured (ev_convert_site ev) (ev_convert_code ev) ->
       _calculate_evaluation (Some ev) prices
         = _calculate_evaluation
             (chain (ev_ticker_site ev) (ev_ticker_code ev) None None) prices)
  ∧ (unconfigured (ev_ticker_site ev) (ev_ticker_code ev) ->
     unconfigured (ev_convert_site ev) (ev_convert_code ev) ->
       _calculate_evaluation (Some ev) prices = Ok (Some _ONE))
  ∧ (∀ s c, (s, c) ∈ configured_legs ev <->
       (ev_ticker_site ev = Some s ∧ ev_ticker_code ev = Some c)
       ∨ (ev_convert_site ev = Some s ∧ ev_convert_code ev = Some c)).
Proof.
  split; [|split; [|split]].
  - intros H. unfold chain, _calculate_evaluation. simpl.
    now rewrite (eval_leg_unconfigured _ _ _ _ H).
  - intros H. unfold chain, _calculate_evaluation. simpl.
    destruct (eval_leg prices _ _ _) as [[p|]|e]; [|reflexivity..].
    now rewrite (eval_leg_unconfigured _ _ _ _ H).
  - intros Ht Hc. unfold _calculate_evaluation.
    rewrite (eval_leg_unconfigured _ _ _ _ Ht).
    now rewrite (eval_leg_unconfigured _ _ _ _ Hc).
  - intros s c. unfold configured_legs. rewrite elem_of_app.
    assert (Hleg : ∀ a b : option string,
               (s, c) ∈ match a, b with
                        | Some s', Some c' => [(s', c')]
                        | _, _ => []
                        end <-> a = Some s ∧ b = Some c).
    { intros [a|] [b|]; rewrite ?elem_of_cons, ?elem_of_nil; split;
        intros H; decompose [and or] H; simplify_eq; auto; contradiction. }
    now rewrite !Hleg.
Qed.

(** A ticker leg with a site and no code, a convert leg with a code and no
    site, and no table at all: the multiplier is 1 and nothing is raised. *)
Lemma half_configured_leg_is_skipped_witness :
  _calculate_evaluation (chain (Some "siteA") None None (Some "USD")) None
    = Ok (Some _ONE)
  ∧ _calculate_evaluation (chain (Some "siteA") None (Some "siteB") (Some "USD"))
      (Some table23)
    = _calculate_evaluation (chain None None (Some "siteB") (Some "USD")) (Some table23).
Proof.
  split.
  - apply (proj1 (proj2 (proj2 (half_configured_leg_is_skipped
             (mk_Evaluation (Some "siteA") None None (Some "USD")) None)))).
    + right. reflexivity.
    + left. reflexivity.
  - apply (proj1 (half_configured_leg_is_skipped
             (mk_Evaluation (Some "siteA") None (Some "siteB") (Some "USD"))
             (Some table23))).
    right. reflexivity.
Defined.

(** ** Loops that collect metrics *)

Lemma collect_total {A} (f : A -> res (option Metric)) (values : list A) :
  (∀ dto, dto ∈ values -> ∃ o, f dto = Ok o) ->
  collect f values = Ok (omap (fun dto => emitted (f dto)) values).
Proof.
  induction values as [|dto rest IH]; intros H; [reflexivity|].
  simpl. destruct (H dto) as [o Ho]; [left|].
  rewrite Ho, IH; [|intros d Hd; apply H; now right].
  simpl. now destruct o.
Qed.

Lemma collect_raises {A} (f : A -> res (option Metric)) (values : list A) dto e :
  dto ∈ values -> f dto = Raise e -> ∃ e', collect f values = Raise e'.
Proof.
  induction values as [|d rest IH]; intros Hin Hf.
  - inversion Hin.
  - simpl. apply elem_of_cons in Hin as [->|Hin].
    + rewrite Hf. eauto.
    + destruct (f d) as [o|e1]; [|eauto].
      destruct (IH Hin Hf) as [e' ->]. eauto.
Qed.

(** ** Ticker metrics *)

Lemma dt_ltb_replace_tzinfo (a c : datetime) :
  dt_ltb (replace_tzinfo a c) c = true <-> wall a < wall c.
Proof. unfold dt_ltb, replace_tzinfo. simpl. rewrite Z.ltb_lt. lia. Qed.

Lemma dt_ltb_astimezone (a c : datetime) :
  dt_ltb (astimezone a c) c = true
    <-> wall a - utcoffset a < wall c - utcoffset c.
Proof. unfold dt_ltb, astimezone. simpl. rewrite Z.ltb_lt. lia. Qed.

Lemma expired_not_expired (product : Product) (timestamp : datetime) :
  match pr_expr product with
  | Some expiry => dt_ltb (astimezone expiry timestamp) timestamp
  | None => false
  end = false <-> not_expired product timestamp.
Proof.
  unfold not_expired. destruct (pr_expr product) as [expiry|]; [|tauto].
  rewrite <- not_true_iff_false, dt_ltb_astimezone. lia.
Qed.

(** C3.  With the threshold read from the property [ticker_threshold]
    (default 3): a record whose quote time, read in the snapshot's zone, is
    strictly before the snapshot timestamp minus the threshold yields no
    metric; a record whose product expiry is, as an instant, strictly before
    the snapshot timestamp yields no metric; and a metric is emitted exactly
    when the quote time is at or after that boundary, the table holds a
    non-zero price for the record's site and code, the product is present
    and not expired and the evaluation resolves, its amount being the table
    price times the evaluation rate. *)
Theorem convert_ticker_inclusion (ctx : Context) (timestamp : datetime)
    (prices : RateTable) (dto : TickerDto.t) (minutes : Z) :
  py_int (get_property ctx _ID "ticker_threshold" (Some 3)) = Ok minutes ->
  let ticker := TickerDto.ticker dto in
  (wall (tk_time ticker) < wall (sub_minutes timestamp minutes) ->
     _convert_ticker ctx timestamp prices dto = Ok None)
  ∧ (∀ product expiry,
       TickerDto.product dto = Some product -> pr_expr product = Some expiry ->
       wall expiry - utcoffset expiry < wall timestamp - utcoffset timestamp ->
       _convert_ticker ctx timestamp prices dto = Ok None)
  ∧ (∀ m, _convert_ticker ctx timestamp prices dto = Ok (Some m) <->
       wall (sub_minutes timestamp minutes) <= wall (tk_time ticker)
       ∧ ∃ product price rate,
           TickerDto.product dto = Some product
           ∧ price_of prices (tk_site ticker) (tk_code ticker) = Some price
           ∧ price ≠ _ZERO
           ∧ not_expired product timestamp
           ∧ _calculate_evaluation (TickerDto.fund dto) (Some prices) = Ok (Some rate)
           ∧ m = mk_Metric "ticker" (pr_disp product) timestamp (price * rate)%Qc).
Proof.
  intros Hmin ticker. unfold _convert_ticker. rewrite Hmin. simpl res_bind.
  fold ticker. set (cutoff := sub_minutes timestamp minutes).
  rewrite calculate_evaluation_rate_of.
  destruct (dt_ltb (replace_tzinfo (tk_time ticker) cutoff) cutoff) eqn:Eold.
  { apply dt_ltb_replace_tzinfo in Eold.
    split; [reflexivity|]. split; [reflexivity|].
    intros m. split; [discriminate|]. intros [Hge _]. lia. }
  apply not_true_iff_false in Eold. rewrite dt_ltb_replace_tzinfo in Eold.
  split; [intros Hlt; lia|].
  destruct (price_of prices (tk_site ticker) (tk_code ticker)) as [price|].
  2:{ split; [reflexivity|]. intros m. split; [discriminate|].
      intros (_ & product & p & r & _ & Hp & _). discriminate. }
  destruct (TickerDto.product dto) as [product|].
  2:{ split; [reflexivity|]. intros m. split; [discriminate|].
      intros (_ & product & p & r & Hp & _). discriminate. }
  case_bool_decide as Hzero.
  { split; [reflexivity|]. intros m. split; [discriminate|].
    intros (_ & pr & p & r & _ & [= <-] & Hnz & _). contradiction. }
  destruct (match pr_expr product with
            | Some expiry => dt_ltb (astimezone expiry timestamp) timestamp
            | None => false
            end) eqn:Eexp.
  { split; [reflexivity|]. intros m. split; [discriminate|].
    intros (_ & pr & p & r & [= <-] & _ & _ & Hne & _).
    apply expired_not_expired in Hne. congruence. }
  split.
  { intros pr expiry [= <-] Hexpiry Hlt. rewrite Hexpiry in Eexp.
    apply not_true_iff_false in Eexp. rewrite dt_ltb_astimezone in Eexp. lia. }
  apply expired_not_expired in Eexp.
  intros m. simpl res_bind.
  destruct (rate_of prices (TickerDto.fund dto)) as [rate|]; split.
  - intros [= <-]. split; [lia|]. exists product, price, rate. auto 10.
  - intros (_ & pr & p & r & [= <-] & [= <-] & _ & _ & [= <-] & ->). reflexivity.
  - discriminate.
  - intros (_ & pr & p & r & _ & _ & _ & _ & [=] & _).
Qed.

(** A quote timestamped exactly three minutes before the snapshot is
    included, with amount 11 * 1; one minute older it is rejected. *)
Lemma convert_ticker_inclusion_witness :
  _convert_ticker (quiet_context snapshot) snapshot
      (_calculate_prices (Some [btc_quote 27])) (btc_quote 27)
    = Ok (Some (mk_Metric "ticker" "BTC/USD" snapshot (dec 11 * _ONE)%Qc))
  ∧ _convert_ticker (quiet_context snapshot) snapshot
      (_calculate_prices (Some [btc_quote 26])) (btc_quote 26)
    = Ok None.
Proof.
  split.
  - apply (proj2 (proj2 (convert_ticker_inclusion (quiet_context snapshot) snapshot
                           (_calculate_prices (Some [btc_quote 27])) (btc_quote 27) 3
                           eq_refl))).
    split; [vm_compute; discriminate|].
    exists (mk_Product "BTC/USD" None), (dec 11), _ONE.
    repeat split; by_evaluation.
  - apply (proj1 (convert_ticker_inclusion (quiet_context snapshot) snapshot
                    (_calculate_prices (Some [btc_quote 26])) (btc_quote 26) 3
                    eq_refl)).
    vm_compute. reflexivity.
Defined.

(** ** Position metrics *)

Lemma save_metrics_calls (ctx : Context) (metrics : list Metric) (st : State) :
  calls (snd (save_metrics ctx metrics st)) = calls st ++ [SaveMetrics metrics].
Proof. reflexivity. Qed.

Lemma try_except_calls (tag : string) (body : M unit) (st : State) :
  calls (snd (try_except tag body st)) = calls (snd (body st)).
Proof. unfold try_except. now destruct (body st) as [[u|e] st']. Qed.

Lemma try_except_ok (tag : string) (body : M unit) (st : State) :
  fst (try_except tag body st) = Ok tt.
Proof. unfold try_except. now destruct (body st) as [[u|e] st']. Qed.

Lemma position_upl_table timestamp (table : RateTable) dto :
  ∃ o, position_upl timestamp (Some table) dto = Ok o.
Proof.
  unfold position_upl. rewrite calculate_evaluation_rate_of. simpl.
  destruct (PositionDto.product dto), (ps_fund (PositionDto.position dto)),
    (rate_of table (PositionDto.fund dto)); eauto.
Qed.

Lemma position_qty_table timestamp (table : RateTable) dto :
  ∃ o, position_qty timestamp (Some table) dto = Ok o.
Proof.
  unfold position_qty. rewrite calculate_evaluation_rate_of. simpl.
  destruct (PositionDto.product dto), (ps_inst (PositionDto.position dto)),
    (rate_of table (PositionDto.inst dto)); eauto.
Qed.

(** C4.  For every position record: [position@upl] (fund quantity times the
    rate of the fund chain) is emitted iff the record's product is present,
    its fund quantity is non-null and its fund chain resolves;
    [position@qty] (instrument quantity times the rate of the inst chain)
    is emitted iff the product is present, the instrument quantity is
    non-null and the inst chain resolves; on a table that exists the batch
    saved is the [position@upl] metrics of the records followed by their
    [position@qty] metrics; and a record whose fund leg is emitted while its
    inst chain does not resolve makes the builder save exactly one metric,
    the [position@upl] one. *)
Theorem position_legs_independent (timestamp : datetime)
    (prices : option RateTable) (dto : PositionDto.t) :
  (∀ m, position_upl timestamp prices dto = Ok (Some m) <->
     ∃ product amount rate,
       PositionDto.product dto = Some product
       ∧ ps_fund (PositionDto.position dto) = Some amount
       ∧ _calculate_evaluation (PositionDto.fund dto) prices = Ok (Some rate)
       ∧ m = mk_Metric "position@upl" (pr_disp product) timestamp (amount * rate)%Qc)
  ∧ (∀ m, position_qty timestamp prices dto = Ok (Some m) <->
       ∃ product amount rate,
         PositionDto.product dto = Some product
         ∧ ps_inst (PositionDto.position dto) = Some amount
         ∧ _calculate_evaluation (PositionDto.inst dto) prices = Ok (Some rate)
         ∧ m = mk_Metric "position@qty" (pr_disp product) timestamp (amount * rate)%Qc)
  ∧ (∀ (table : RateTable) values,
       position_metrics timestamp (Some table) (Some values)
         = Ok (omap (fun d => emitted (position_upl timestamp (Some table) d)) values
               ++ omap (fun d => emitted (position_qty timestamp (Some table) d)) values))
  ∧ (∀ ctx st product amount rate,
       fetch_positions ctx timestamp = Ok (Some [dto]) ->
       PositionDto.product dto = Some product ->
       ps_fund (PositionDto.position dto) = Some amount ->
       _calculate_evaluation (PositionDto.fund dto) prices = Ok (Some rate) ->
       _calculate_evaluation (PositionDto.inst dto) prices = Ok None ->
       calls (snd (process_position ctx timestamp prices st))
         = calls st ++ [SaveMetrics [mk_Metric "position@upl" (pr_disp product)
                                       timestamp (amount * rate)%Qc]]).
Proof.
  split; [|split; [|split]].
  - intros m. unfold position_upl.
    destruct (_calculate_evaluation (PositionDto.fund dto) prices) as [[rate|]|e];
      simpl;
      destruct (PositionDto.product dto) as [product|],
               (ps_fund (PositionDto.position dto)) as [amount|];
      (split; [intros H; simplify_eq; eauto 10
              |intros (p & a & r & ? & ? & ? & ->); simplify_eq; reflexivity]).
  - intros m. unfold position_qty.
    destruct (_calculate_evaluation (PositionDto.inst dto) prices) as [[rate|]|e];
      simpl;
      destruct (PositionDto.product dto) as [product|],
               (ps_inst (PositionDto.position dto)) as [amount|];
      (split; [intros H; simplify_eq; eauto 10
              |intros (p & a & r & ? & ? & ? & ->); simplify_eq; reflexivity]).
  - intros table values. unfold position_metrics. simpl default.
    rewrite !collect_total; [reflexivity|..];
      intros d _; [apply position_qty_table | apply position_upl_table].
  - intros ctx st product amount rate Hfetch Hprod Hamount Hfund Hinst.
    unfold process_position. rewrite try_except_calls.
    unfold position_body, lift_bind. rewrite Hfetch.
    unfold position_metrics. simpl.
    unfold position_upl, position_qty.
    rewrite Hfund, Hinst, Hprod, Hamount. simpl.
    destruct (ps_inst (PositionDto.position dto)); reflexivity.
Qed.

(** The fund chain of [btc_position] resolves to 2 and its inst chain does
    not resolve: the builder saves the single metric [position@upl] of
    amount 5 * (1 * 2). *)
Lemma position_legs_independent_witness :
  calls (snd (process_position
                (set_fetch_positions (quiet_context snapshot)
                   (fun _ => Ok (Some [btc_position])))
                snapshot (Some table23) empty_state))
    = [SaveMetrics [mk_Metric "position@upl" "BTC/USD" snapshot
                      (dec 5 * (_ONE * dec 2))%Qc]].
Proof.
  apply (proj2 (proj2 (proj2 (position_legs_independent snapshot (Some table23)
                                btc_position)))
           (set_fetch_positions (quiet_context snapshot)
              (fun _ => Ok (Some [btc_position])))
           empty_state (mk_Product "BTC/USD" None) (dec 5) (_ONE * dec 2)%Qc);
    reflexivity.
Defined.

(** ** Trade metrics *)

Lemma trade_metric_table timestamp (table : RateTable) key dto :
  ∃ o, trade_metric timestamp (Some table) key dto = Ok o.
Proof.
  unfold trade_metric. rewrite !calculate_evaluation_rate_of. simpl.
  destruct (TransactionDto.product dto), (TransactionDto.tx_net_inst dto),
    (TransactionDto.tx_net_fund dto), (rate_of table (TransactionDto.ev_inst dto)),
    (rate_of table (TransactionDto.ev_fund dto)); eauto.
Qed.

(** At 2018-03-15 10:30 UTC with the default offset of 540 minutes the day
    starts at 2018-03-14 15:00, the month at 2018-02-28 15:00 and the year
    at 2017-12-31 15:00; at 16:30 the day has moved on to 2018-03-15 15:00. *)
Example trade_windows_morning :
  trade_windows (civil 2018 3 15 10 30 0) 540
    = [ ("DAY", civil 2018 3 14 15 0 0);
        ("MTD", civil 2018 2 28 15 0 0);
        ("YTD", civil 2017 12 31 15 0 0) ].
Proof. vm_compute. reflexivity. Qed.

Example trade_windows_afternoon :
  trade_windows (civil 2018 3 15 16 30 0) 540
    = [ ("DAY", civil 2018 3 15 15 0 0);
        ("MTD", civil 2018 2 28 15 0 0);
        ("YTD", civil 2017 12 31 15 0 0) ].
Proof. vm_compute. reflexivity. Qed.

(** C5, as amended.  A transaction record yields a trade metric for a window
    exactly when its product is present, its two net quantities are
    non-null and its inst and fund chains both resolve; the metric is named
    [trade@<WINDOW>] and its amount is netInstrumentQty * instRate +
    netFundQty * fundRate.  With the offset read from the property [offset]
    (default 540 minutes), the batch saved is, for the windows DAY, MTD and
    YTD in this order, one metric for each record fetched for the window
    that is not skipped: nothing is aggregated. *)
Theorem trade_metric_per_record (timestamp : datetime) (prices : option RateTable) :
  (∀ key dto m, trade_metric timestamp prices key dto = Ok (Some m) <->
     ∃ product inst_qty fund_qty inst_rate fund_rate,
       TransactionDto.product dto = Some product
       ∧ TransactionDto.tx_net_inst dto = Some inst_qty
       ∧ TransactionDto.tx_net_fund dto = Some fund_qty
       ∧ _calculate_evaluation (TransactionDto.ev_inst dto) prices = Ok (Some inst_rate)
       ∧ _calculate_evaluation (TransactionDto.ev_fund dto) prices = Ok (Some fund_rate)
       ∧ m = mk_Metric ("trade@" +:+ key) (pr_disp product) timestamp
               (inst_qty * inst_rate + fund_qty * fund_rate)%Qc)
  ∧ (∀ ctx (table : RateTable) offset day mtd ytd,
       prices = Some table ->
       py_int (get_property ctx _ID "offset" (Some 540)) = Ok offset ->
       let t := add_minutes timestamp offset in
       fetch_transactions ctx (sub_minutes (replace_midnight t) offset) timestamp
         = Ok day ->
       fetch_transactions ctx (sub_minutes (replace_month_start t) offset) timestamp
         = Ok mtd ->
       fetch_transactions ctx (sub_minutes (replace_year_start t) offset) timestamp
         = Ok ytd ->
       trade_metrics ctx timestamp prices =
         Ok (omap (fun dto => emitted (trade_metric timestamp prices "DAY" dto))
                  (default [] day)
             ++ omap (fun dto => emitted (trade_metric timestamp prices "MTD" dto))
                     (default [] mtd)
             ++ omap (fun dto => emitted (trade_metric timestamp prices "YTD" dto))
                     (default [] ytd))).
Proof.
  split.
  - intros key dto m. unfold trade_metric.
    destruct (_calculate_evaluation (TransactionDto.ev_inst dto) prices)
      as [[inst_rate|]|e1];
      destruct (_calculate_evaluation (TransactionDto.ev_fund dto) prices)
        as [[fund_rate|]|e2];
      simpl;
      destruct (TransactionDto.product dto) as [product|],
               (TransactionDto.tx_net_inst dto) as [inst_qty|],
               (TransactionDto.tx_net_fund dto) as [fund_qty|];
      (split; [intros H; simplify_eq; eauto 12
              |intros (p & a & b & r & s & ? & ? & ? & ? & ? & ->);
               simplify_eq; reflexivity]).
  - intros ctx table offset day mtd ytd -> Hoffset t Hday Hmtd Hytd.
    unfold trade_metrics. change (9 * 60) with 540. rewrite Hoffset.
    unfold res_bind at 1. unfold trade_windows. cbv zeta. fold t.
    cbn [collect_windows]. rewrite Hday, Hmtd, Hytd.
    cbn [res_bind].
    rewrite !collect_total by (intros; apply trade_metric_table).
    cbn [res_bind]. now rewrite app_nil_r.
Qed.

(** One transaction fetched for each of the three windows, with its product:
    three metrics, one per window, each of amount 4 * (1 * 2) + (-9) * (1 * 3). *)
Lemma trade_metric_per_record_witness :
  trade_metrics
      (set_fetch_transactions (quiet_context snapshot)
         (fun _ _ => Ok (Some [btc_transaction (Some (mk_Product "BTC/USD" None))])))
      snapshot (Some table23)
    = Ok (map (fun key =>
                 mk_Metric ("trade@" +:+ key) "BTC/USD" snapshot
                   (dec 4 * (_ONE * dec 2) + dec (-9) * (_ONE * dec 3))%Qc)
              ["DAY"; "MTD"; "YTD"]).
Proof.
  apply (proj2 (trade_metric_per_record snapshot (Some table23))
           (set_fetch_transactions (quiet_context snapshot)
              (fun _ _ => Ok (Some [btc_transaction (Some (mk_Product "BTC/USD" None))])))
           table23 540 _ _ _ eq_refl eq_refl eq_refl eq_refl eq_refl).
Defined.

(** C5, as stated, fails: a transaction in the window whose two chains
    resolve (to 2 and to 3) and whose two net quantities are set, but whose
    product is null, yields no metric: the batch saved is empty. *)
Lemma trade_record_without_product_is_skipped :
  _calculate_evaluation (TransactionDto.ev_inst (btc_transaction None)) (Some table23)
    = Ok (Some (_ONE * dec 2)%Qc)
  ∧ _calculate_evaluation (TransactionDto.ev_fund (btc_transaction None)) (Some table23)
    = Ok (Some (_ONE * dec 3)%Qc)
  ∧ TransactionDto.tx_net_inst (btc_transaction None) = Some (dec 4)
  ∧ TransactionDto.tx_net_fund (btc_transaction None) = Some (dec (-9))
  ∧ trade_metric snapshot (Some table23) "DAY" (btc_transaction None) = Ok None
  ∧ calls (snd (process_transaction_trade
                  (set_fetch_transactions (quiet_context snapshot)
                     (fun _ _ => Ok (Some [btc_transaction None])))
                  snapshot (Some table23) empty_state))
    = [SaveMetrics []].
Proof. repeat split. Qed.

(** ** The purge *)

Lemma tier_cutoff (ctx : Context) (h : Z) :
  cutoff_in_range (get_now ctx)
    (DeleteMetrics (mk_datetime (wall (get_now ctx) - Z.max h 1 * 3600000000)
                                (utcoffset (get_now ctx))) [])
  <-> res_bind (timedelta_hours (Z.max h 1)) (datetime_sub (get_now ctx))
      = Ok (mk_datetime (wall (get_now ctx) - Z.max h 1 * 3600000000)
                        (utcoffset (get_now ctx))).
Proof.
  unfold cutoff_in_range, timedelta_hours, datetime_sub. cbn [wall].
  replace (wall (get_now ctx) - (wall (get_now ctx) - Z.max h 1 * 3600000000))
    with (Z.max h 1 * 3600000000) by lia.
  rewrite Z.div_mul by lia.
  change min_wall with (-62135596800000000).
  change max_wall with 253402300799999999.
  change usec_per_hour with 3600000000.
  repeat case_bool_decide; cbn [res_bind]; try case_bool_decide;
    split; try tauto; try discriminate; intros; exfalso; tauto.
Qed.

Lemma tier_cutoff_overflow (ctx : Context) (h : Z) :
  ¬ cutoff_in_range (get_now ctx)
      (DeleteMetrics (mk_datetime (wall (get_now ctx) - Z.max h 1 * 3600000000)
                                  (utcoffset (get_now ctx))) []) ->
  res_bind (timedelta_hours (Z.max h 1)) (datetime_sub (get_now ctx))
    = Raise OverflowError.
Proof.
  intros Hout.
  destruct (res_bind (timedelta_hours (Z.max h 1)) (datetime_sub (get_now ctx)))
    as [cutoff|e] eqn:E.
  - exfalso. apply Hout, tier_cutoff. rewrite E. f_equal.
    unfold timedelta_hours, datetime_sub in E.
    case_bool_decide; cbn [res_bind] in E; [|discriminate].
    case_bool_decide; [|discriminate].
    injection E as <-. change usec_per_hour with 3600000000. reflexivity.
  - unfold timedelta_hours, datetime_sub in E.
    case_bool_decide; cbn [res_bind] in E; [|congruence].
    case_bool_decide; congruence.
Qed.

(** What a sweep does: the deletes it makes are the planned ones, in their
    order, up to the first one that raises or whose cutoff cannot be
    computed. *)
Lemma purge_loop_outcome (ctx : Context) (intervals : list (Z * list Z)) :
  ∀ idx st,
    ∃ issued,
      calls (snd (purge_loop ctx (get_now ctx) idx intervals st)) = calls st ++ issued
      ∧ warnings (snd (purge_loop ctx (get_now ctx) idx intervals st)) = warnings st
      ∧ match fst (purge_loop ctx (get_now ctx) idx intervals st) with
        | Ok _ =>
            issued = tiers_from ctx idx intervals
            ∧ Forall (fun c => cutoff_in_range (get_now ctx) c ∧ delete_succeeds ctx c)
                     issued
        | Raise e =>
            ∃ before failing after,
              tiers_from ctx idx intervals = before ++ [failing] ++ after
              ∧ Forall (fun c => cutoff_in_range (get_now ctx) c ∧ delete_succeeds ctx c)
                       before
              ∧ (issued = before ++ [failing]
                 ∧ cutoff_in_range (get_now ctx) failing
                 ∧ delete_raises ctx e failing
                 ∨ issued = before
                   ∧ ¬ cutoff_in_range (get_now ctx) failing
                   ∧ e = OverflowError)
        end.
Proof.
  induction intervals as [|entry rest IH]; intros idx st.
  - exists []. simpl. rewrite app_nil_r. repeat split; constructor.
  - cbn [purge_loop tiers_from]. unfold tier.
    destruct (get_property ctx _ID ("purge_" +:+ pretty idx) (Some entry.1))
      as [h|]; [|apply IH].
    cbn [py_int].
    destruct (decide (cutoff_in_range (get_now ctx)
                        (DeleteMetrics
                           (mk_datetime (wall (get_now ctx) - Z.max h 1 * 3600000000)
                                        (utcoffset (get_now ctx))) [])))
      as [Hin|Hout].
    + rewrite (proj1 (tier_cutoff ctx h) Hin).
      remember (mk_datetime (wall (get_now ctx) - Z.max h 1 * 3600000000)
                            (utcoffset (get_now ctx))) as cutoff eqn:Hcutoff.
      assert (Hin' : cutoff_in_range (get_now ctx) (DeleteMetrics cutoff entry.2))
        by exact Hin.
      unfold delete_metrics.
      destruct (delete_metrics_result ctx cutoff entry.2) as [count|e] eqn:Hdel.
      * destruct (IH (S idx)
                    (mk_State (calls st ++ [DeleteMetrics cutoff entry.2]) (warnings st)))
          as (issued & Hcalls & Hwarn & Hout).
        exists (DeleteMetrics cutoff entry.2 :: issued).
        cbn [calls warnings] in Hcalls, Hwarn.
        split; [rewrite Hcalls, <- app_assoc; reflexivity|].
        split; [exact Hwarn|].
        destruct (fst (purge_loop ctx (get_now ctx) (S idx) rest _)) as [u|e].
        -- destruct Hout as [-> Hok]. split; [reflexivity|].
           constructor; [split; [exact Hin'|simpl; eauto]|exact Hok].
        -- destruct Hout as (before & failing & after & Heq & Hok & Hend).
           exists (DeleteMetrics cutoff entry.2 :: before), failing, after.
           split; [simpl; now rewrite Heq|].
           split; [constructor; [split; [exact Hin'|simpl; eauto]|exact Hok]|].
           destruct Hend as [(-> & Hr & Hf)|(-> & Hr & ->)]; [left|right]; auto.
      * exists [DeleteMetrics cutoff entry.2]. cbn [fst snd calls warnings].
        split; [reflexivity|]. split; [reflexivity|].
        exists [], (DeleteMetrics cutoff entry.2), (tiers_from ctx (S idx) rest).
        split; [reflexivity|]. split; [constructor|]. left. auto.
    + rewrite (tier_cutoff_overflow ctx h Hout). cbn [fst snd].
      exists []. rewrite app_nil_r. split; [reflexivity|]. split; [reflexivity|].
      eexists [], _, (tiers_from ctx (S idx) rest).
      split; [reflexivity|]. split; [constructor|]. right. auto.
Qed.

Lemma purge_loop_prefix (ctx : Context) (intervals : list (Z * list Z)) idx st issued :
  calls (snd (purge_loop ctx (get_now ctx) idx intervals st)) = calls st ++ issued ->
  issued `prefix_of` tiers_from ctx idx intervals.
Proof.
  intros Hcalls.
  destruct (purge_loop_outcome ctx intervals idx st) as (issued' & Hcalls' & _ & Hout).
  rewrite Hcalls in Hcalls'. apply app_inv_head in Hcalls'. subst issued'.
  destruct (fst (purge_loop ctx (get_now ctx) idx intervals st)) as [u|e].
  - destruct Hout as [-> _]. reflexivity.
  - destruct Hout as (before & failing & after & -> & _ & [(-> & _)|(-> & _)]).
    + exists after. now rewrite <- app_assoc.
    + now exists ([failing] ++ after).
Qed.




(** ** The builders and the fan-out *)

Lemma lift_bind_bind {A B C} (r : res A) (g : A -> res B) (k : B -> M C) (st : State) :
  lift_bind r (fun a => lift_bind (g a) k) st = lift_bind (res_bind r g) k st.
Proof. now destruct r. Qed.

Lemma builder_calls (ctx : Context) (tag : string) (metrics : res (list Metric))
    (st : State) :
  calls (snd (try_except tag (lift_bind metrics (save_metrics ctx)) st))
    = calls st ++ saved metrics.
Proof.
  rewrite try_except_calls. unfold lift_bind.
  destruct metrics as [ms|e]; simpl; [reflexivity|now rewrite app_nil_r].
Qed.

Lemma builder_raises (ctx : Context) (tag : string) (e : exn) (st : State) :
  try_except tag (lift_bind (Raise e) (save_metrics ctx)) st = (Ok tt, warn tag e st).
Proof. reflexivity. Qed.

Lemma process_balance_eq ctx timestamp prices st :
  process_balance ctx timestamp prices st
    = try_except "Balance"
        (lift_bind (balance_metrics ctx timestamp prices) (save_metrics ctx)) st.
Proof.
  unfold process_balance, try_except, balance_body, balance_metrics.
  now rewrite lift_bind_bind.
Qed.

Lemma process_position_eq ctx timestamp prices st :
  process_position ctx timestamp prices st
    = try_except "Position"
        (lift_bind (res_bind (fetch_positions ctx timestamp)
                      (position_metrics timestamp prices))
           (save_metrics ctx)) st.
Proof.
  unfold process_position, try_except, position_body.
  now rewrite lift_bind_bind.
Qed.

Lemma run_calls (ctx : Context) (th : thread) (st : State) :
  calls (snd (run ctx th st)) = calls st ++ thread_calls ctx th.
Proof.
  unfold run, thread_calls, thread_metrics.
  destruct (th_target th).
  - rewrite process_balance_eq. apply builder_calls.
  - rewrite process_position_eq. apply builder_calls.
  - apply builder_calls.
  - apply builder_calls.
Qed.

Lemma run_ok (ctx : Context) (th : thread) (st : State) :
  fst (run ctx th st) = Ok tt.
Proof. unfold run. destruct (th_target th); apply try_except_ok. Qed.

Lemma run_threads_calls (ctx : Context) (threads : list thread) (st : State) :
  calls (run_threads ctx threads st) = calls st ++ flat_map (thread_calls ctx) threads.
Proof.
  revert st. induction threads as [|th rest IH]; intros st; simpl.
  - now rewrite app_nil_r.
  - now rewrite IH, run_calls, <- app_assoc.
Qed.

Lemma process_ticker_spec (ctx : Context) (timestamp : datetime) (st : State) :
  fst (process_ticker ctx timestamp st) = ticker_prices ctx timestamp
  ∧ calls (snd (process_ticker ctx timestamp st))
    = calls st ++ saved (ticker_metrics ctx timestamp).
Proof.
  unfold process_ticker, ticker_prices, ticker_metrics.
  destruct (fetch_tickers ctx timestamp true) as [values|e]; simpl.
  - destruct (collect _ _) as [metrics|e]; simpl.
    + destruct (save_metrics_result ctx metrics); simpl; auto.
    + now rewrite app_nil_r.
  - now rewrite app_nil_r.
Qed.

Lemma spawn_spec (ctx : Context) (timestamps : list datetime) (st : State) :
  fst (spawn ctx timestamps st) = threads_of ctx timestamps
  ∧ calls (snd (spawn ctx timestamps st)) = calls st ++ ticker_calls ctx timestamps.
Proof.
  revert st. induction timestamps as [|timestamp rest IH]; intros st; simpl.
  - now rewrite app_nil_r.
  - destruct (process_ticker_spec ctx timestamp st) as [Hp Hc].
    destruct (process_ticker ctx timestamp st) as [prices st1]. simpl in Hp, Hc.
    destruct (IH st1) as [Ht Hs].
    destruct (spawn ctx rest st1) as [threads st2]. simpl in Ht, Hs.
    simpl. subst. split; [reflexivity|].
    now rewrite Hs, Hc, <- app_assoc.
Qed.

Lemma process_metric_calls (ctx : Context) schedule default_time default_count
    (count : Z) (st : State) :
  py_int (get_property ctx _ID "timestamp" (Some default_count)) = Ok count ->
  fst (process_metric ctx schedule default_time default_count st) = Ok tt
  ∧ calls (snd (process_metric ctx schedule default_time default_count st))
    = calls st
      ++ ticker_calls ctx (snapshot_timestamps ctx default_time count)
      ++ flat_map (thread_calls ctx)
           (schedule (threads_of ctx (snapshot_timestamps ctx default_time count))).
Proof.
  intros Hcount. unfold process_metric. rewrite Hcount.
  fold (default (get_now ctx) default_time).
  change (match default_time with Some t => t | None => get_now ctx end)
    with (default (get_now ctx) default_time).
  fold (snapshot_timestamps ctx default_time count).
  destruct (spawn_spec ctx (snapshot_timestamps ctx default_time count) st) as [Ht Hs].
  destruct (spawn ctx _ st) as [threads st1]. simpl in Ht, Hs. subst threads.
  simpl. split; [reflexivity|].
  now rewrite run_threads_calls, Hs, <- app_assoc.
Qed.

Lemma thread_calls_failing_positions (ctx : Context) (e : exn) (threads : list thread) :
  flat_map (thread_calls (set_fetch_positions ctx (fun _ => Raise e))) threads
    = flat_map (thread_calls ctx) (filter other_than_position threads).
Proof.
  induction threads as [|th rest IH]; [reflexivity|].
  simpl. rewrite IH.
  destruct (decide (other_than_position th)) as [H|H].
  - rewrite (filter_cons_True _ _ _ H). simpl. f_equal.
    unfold other_than_position in H.
    unfold thread_calls, thread_metrics.
    destruct (th_target th); [reflexivity|contradiction|reflexivity..].
  - rewrite (filter_cons_False _ _ _ H).
    unfold other_than_position in H. apply dec_stable in H.
    unfold thread_calls, thread_metrics. now rewrite H.
Qed.

Lemma calculate_evaluation_no_table (ev : Evaluation) :
  configured_legs ev ≠ [] ->
  _calculate_evaluation (Some ev) None = Raise AttributeError.
Proof.
  destruct ev as [[ts|] [tc|] [cs|] [cc|]]; unfold configured_legs; simpl;
    intros H; try reflexivity; contradiction.
Qed.

(** C7, as amended.  No builder lets an exception through: whatever the
    context does, each of the four builders returns normally; when
    [fetch_positions] raises, the position builder logs the exception and
    returns.  A snapshot run in which [fetch_positions] raises makes the
    storage calls of the run in which it does not, less the calls of the
    position threads: the tickers and the balance, trade and volume batches
    of every timestamp are saved all the same.  The same holds for every
    kind: when the builders of one kind fail in a context in which the
    builders of the other kinds collect what they collect in the healthy
    one, the threads persist exactly the batches of those other kinds. *)
Theorem builders_fault_isolated (ctx : Context) (timestamp : datetime)
    (prices : option RateTable) (st : State) :
  fst (process_balance ctx timestamp prices st) = Ok tt
  ∧ fst (process_position ctx timestamp prices st) = Ok tt
  ∧ fst (process_transaction_trade ctx timestamp prices st) = Ok tt
  ∧ fst (process_transaction_volume ctx timestamp prices st) = Ok tt
  ∧ (∀ e, fetch_positions ctx timestamp = Raise e ->
       process_position ctx timestamp prices st = (Ok tt, warn "Position" e st))
  ∧ (∀ (failing : Context) (kind : target) (threads : list thread),
       (∀ th, th_target th = kind -> ∃ e, thread_metrics failing th = Raise e) ->
       (∀ th, th_target th ≠ kind ->
          thread_metrics failing th = thread_metrics ctx th) ->
       calls (run_threads failing threads st)
         = calls st
           ++ flat_map (thread_calls ctx)
                (filter (fun th => th_target th ≠ kind) threads))
  ∧ (∀ e schedule default_time default_count count,
       py_int (get_property ctx _ID "timestamp" (Some default_count)) = Ok count ->
       let failing := set_fetch_positions ctx (fun _ => Raise e) in
       let threads := threads_of ctx (snapshot_timestamps ctx default_time count) in
       calls (snd (process_metric ctx schedule default_time default_count st))
         = calls st
           ++ ticker_calls ctx (snapshot_timestamps ctx default_time count)
           ++ flat_map (thread_calls ctx) (schedule threads)
       ∧ calls (snd (process_metric failing schedule default_time default_count st))
         = calls st
           ++ ticker_calls ctx (snapshot_timestamps ctx default_time count)
           ++ flat_map (thread_calls ctx)
                (filter other_than_position (schedule threads))).
Proof.
  do 4 (split; [apply try_except_ok|]). split; [|split].
  - intros e He. rewrite process_position_eq, He. apply builder_raises.
  - intros failing kind threads Hfail Hsame. rewrite run_threads_calls. f_equal.
    induction threads as [|th rest IH]; [reflexivity|].
    cbn [flat_map]. rewrite IH, filter_cons.
    destruct (decide (th_target th ≠ kind)) as [H|H]; cbn [flat_map].
    + unfold thread_calls. now rewrite (Hsame th H).
    + apply dec_stable in H. unfold thread_calls at 1.
      now destruct (Hfail th H) as [e ->].
  - intros e schedule default_time default_count count Hcount failing threads.
    split.
    + now apply process_metric_calls.
    + rewrite <- (thread_calls_failing_positions ctx e).
      apply (process_metric_calls failing schedule default_time default_count
               count st Hcount).
Qed.

(** The end-to-end scenario with [fetch_positions] raising: the ticker
    (101) and the balance (5 * 101 = 505) are saved, and so are the (empty)
    trade and volume batches. *)
Lemma builders_fault_isolated_witness :
  calls (snd (process_metric
                (set_fetch_positions scenario_context
                   (fun _ => Raise (StorageError "positions")))
                id None 3 empty_state))
    = [ SaveMetrics [mk_Metric "ticker" "BTC/USD" snapshot (dec 101)];
        SaveMetrics [mk_Metric "balance" "wallet" snapshot (dec 505)];
        SaveMetrics [];
        SaveMetrics [] ].
Proof.
  rewrite (proj2 (proj2 (proj2 (proj2 (proj2 (proj2 (proj2
             (builders_fault_isolated scenario_context snapshot None empty_state))))))
             (StorageError "positions") id None 3 1 eq_refl)).
  by_evaluation.
Defined.

(** C7, as stated, fails for the ticker kind.  In the end-to-end scenario
    the balance of 505 is saved; when [fetch_tickers] raises instead, the
    builders get no rate table, the balance builder raises on its lookup
    and saves nothing: only the empty position, trade and volume batches
    reach the storage. *)
Lemma ticker_failure_starves_balance :
  calls (snd (process_metric scenario_context id None 3 empty_state))
    = [ SaveMetrics [mk_Metric "ticker" "BTC/USD" snapshot (dec 101)];
        SaveMetrics [mk_Metric "balance" "wallet" snapshot (dec 505)];
        SaveMetrics []; SaveMetrics []; SaveMetrics [] ]
  ∧ calls (snd (process_metric
                  (set_fetch_tickers scenario_context
                     (fun _ _ => Raise (StorageError "tickers")))
                  id None 3 empty_state))
    = [ SaveMetrics []; SaveMetrics []; SaveMetrics [] ]
  ∧ warnings (snd (process_metric
                     (set_fetch_tickers scenario_context
                        (fun _ _ => Raise (StorageError "tickers")))
                     id None 3 empty_state))
    = [ ("Ticker", StorageError "tickers"); ("Balance", AttributeError) ].
Proof. repeat split; by_evaluation. Qed.

(** ** Recomputation *)

Lemma flat_map_schedule (ctx : Context) (l1 l2 : list thread) :
  l1 ≡ₚ l2 -> flat_map (thread_calls ctx) l1 ≡ₚ flat_map (thread_calls ctx) l2.
Proof.
  induction 1 as [|th l1 l2 _ IH|th1 th2 l|l1 l2 l3 _ IH1 _ IH2]; simpl.
  - reflexivity.
  - now rewrite IH.
  - rewrite !app_assoc. f_equiv. apply Permutation_app_comm.
  - now rewrite IH1.
Qed.

(** C8.  Two runs of the snapshot pipeline against the same context (same
    fetch results, same property values, same clock), from any two storage
    states and under any two schedules of the builder threads, end alike
    and add to the log storage calls that are the same up to their order,
    hence carry the same metrics with the same kind, name, timestamp and
    amount; under the same schedule the added calls are the same list. *)
Theorem process_metric_deterministic (ctx : Context)
    (schedule1 schedule2 : list thread -> list thread)
    (default_time : option datetime) (default_count : Z) (st1 st2 : State) :
  (∀ threads, schedule1 threads ≡ₚ threads) ->
  (∀ threads, schedule2 threads ≡ₚ threads) ->
  fst (process_metric ctx schedule1 default_time default_count st1)
    = fst (process_metric ctx schedule2 default_time default_count st2)
  ∧ ∃ calls1 calls2,
      calls (snd (process_metric ctx schedule1 default_time default_count st1))
        = calls st1 ++ calls1
      ∧ calls (snd (process_metric ctx schedule2 default_time default_count st2))
        = calls st2 ++ calls2
      ∧ calls1 ≡ₚ calls2
      ∧ ((∀ threads, schedule1 threads = schedule2 threads) -> calls1 = calls2).
Proof.
  intros H1 H2.
  destruct (py_int (get_property ctx _ID "timestamp" (Some default_count)))
    as [count|e] eqn:Hcount.
  - destruct (process_metric_calls ctx schedule1 default_time default_count
                count st1 Hcount) as [-> ->].
    destruct (process_metric_calls ctx schedule2 default_time default_count
                count st2 Hcount) as [-> ->].
    split; [reflexivity|].
    eexists _, _. split; [reflexivity|]. split; [reflexivity|]. split.
    + f_equiv. apply flat_map_schedule. now rewrite H1, H2.
    + intros Heq. now rewrite Heq.
  - unfold process_metric. rewrite Hcount. simpl.
    split; [reflexivity|].
    exists [], []. rewrite !app_nil_r. auto.
Qed.

(** The end-to-end scenario run twice, the second run on the storage left
    by the first and with the threads in the opposite order. *)
Lemma process_metric_deterministic_witness :
  let first := process_metric scenario_context id None 3 empty_state in
  let second := process_metric scenario_context reverse None 3 (snd first) in
  fst first = fst second
  ∧ ∃ calls1 calls2,
      calls (snd first) = calls empty_state ++ calls1
      ∧ calls (snd second) = calls (snd first) ++ calls2
      ∧ calls1 ≡ₚ calls2
      ∧ ((∀ threads : list thread, id threads = reverse threads) -> calls1 = calls2).
Proof.
  exact (process_metric_deterministic scenario_context id reverse None 3
           empty_state
           (snd (process_metric scenario_context id None 3 empty_state))
           (fun threads => reflexivity threads)
           (fun threads => reverse_Permutation threads)).
Defined.

(** * Further properties of the welder *)

(** ** The evaluator, continued *)

(** X3.  Given no table, the evaluator raises exactly when the chain has a
    configured leg, and what it raises is [AttributeError]: the lookup is
    attempted before any arithmetic.  A null chain gives none and a chain
    with no configured leg gives 1, table or not. *)
Theorem calculate_evaluation_without_table (evaluation : option Evaluation) :
  (∀ e, _calculate_evaluation evaluation None = Raise e <->
     e = AttributeError ∧ ∃ ev, evaluation = Some ev ∧ configured_legs ev ≠ [])
  ∧ (evaluation = None -> _calculate_evaluation evaluation None = Ok None)
  ∧ (∀ ev, evaluation = Some ev -> configured_legs ev = [] ->
       _calculate_evaluation evaluation None = Ok (Some _ONE)).
Proof.
  split; [|split].
  - intros e. split.
    + destruct evaluation as [ev|]; [|discriminate].
      destruct (decide (configured_legs ev = [])) as [Hnil|Hlegs].
      * destruct ev as [[ts|] [tc|] [cs|] [cc|]]; try discriminate Hnil;
          discriminate.
      * rewrite (calculate_evaluation_no_table ev Hlegs). intros [= <-]. eauto.
    + intros (-> & ev & -> & Hlegs). now apply calculate_evaluation_no_table.
  - now intros ->.
  - intros ev -> Hnil.
    destruct ev as [[ts|] [tc|] [cs|] [cc|]]; try discriminate Hnil; reflexivity.
Qed.

Lemma calculate_evaluation_without_table_witness :
  _calculate_evaluation (chain (Some "siteA") None None None) None = Ok (Some _ONE).
Proof.
  apply (proj2 (proj2 (calculate_evaluation_without_table
                         (chain (Some "siteA") None None None)))
           (mk_Evaluation (Some "siteA") None None None) eq_refl eq_refl).
Defined.

Lemma leg_price_price_of (table : RateTable) s c :
  leg_price table (s, c) = nonzero (price_of table s c).
Proof.
  unfold leg_price, price_of. simpl. f_equal.
  destruct (table !! s) as [codes|]; simpl; [reflexivity|].
  unfold dict_get. now rewrite lookup_empty.
Qed.

(** X4.  The evaluator reads the table at the configured legs only: on two
    tables that give the same price for every configured leg of the chain,
    the chain evaluates alike. *)
Theorem calculate_evaluation_reads_legs_only (ev : Evaluation)
    (table1 table2 : RateTable) :
  (∀ s c, (s, c) ∈ configured_legs ev ->
     price_of table1 s c = price_of table2 s c) ->
  _calculate_evaluation (Some ev) (Some table1)
    = _calculate_evaluation (Some ev) (Some table2).
Proof.
  intros H. rewrite !calculate_evaluation_rate_of. f_equal.
  unfold rate_of. f_equal.
  induction (configured_legs ev) as [|[s c] legs IH]; [reflexivity|].
  simpl. rewrite !leg_price_price_of.
  rewrite (H s c) by (now left).
  rewrite IH; [reflexivity|]. intros s' c' Hin. apply H. now right.
Qed.

Lemma calculate_evaluation_reads_legs_only_witness :
  _calculate_evaluation (chain (Some "siteA") (Some "BTC") None None) (Some table23)
    = _calculate_evaluation (chain (Some "siteA") (Some "BTC") None None)
        (Some (setitem2 table23 "siteB" "USD" None)).
Proof.
  apply (calculate_evaluation_reads_legs_only
           (mk_Evaluation (Some "siteA") (Some "BTC") None None)).
  intros s c Hin. apply list_elem_of_singleton in Hin. injection Hin as -> ->.
  by_evaluation.
Defined.

(** ** The rate table and the ticker metrics, continued *)

Lemma price_of_calculate_prices (tickers : list TickerDto.t) (site code : string) :
  price_of (_calculate_prices (Some tickers)) site code
    = last_ticker site code tickers ≫= ticker_price.
Proof.
  induction tickers as [|dto tickers IH] using rev_ind; [reflexivity|].
  rewrite calculate_prices_snoc, price_of_setitem2, last_ticker_snoc.
  unfold quoted_for in *.
  destruct (decide _) as [H|H]; [reflexivity|exact IH].
Qed.

(** X5.  Building the table and evaluating compose: on the table built from
    a batch, a chain with the single ticker leg (site, code) evaluates to 1
    times the price computed for the last record of the batch quoted for
    that key, and to none when there is no such record or that price is
    null or zero. *)
Theorem single_leg_reads_last_quote (tickers : list TickerDto.t) (site code : string) :
  _calculate_evaluation (chain (Some site) (Some code) None None)
      (Some (_calculate_prices (Some tickers)))
    = Ok ((fun p => (_ONE * p)%Qc)
            <$> nonzero (last_ticker site code tickers ≫= ticker_price)).
Proof.
  rewrite calculate_evaluation_rate_of. f_equal.
  unfold rate_of, chain, configured_legs. simpl.
  rewrite leg_price_price_of, price_of_calculate_prices.
  now destruct (nonzero _) as [p|].
Qed.

Lemma convert_ticker_emits (ctx : Context) (timestamp : datetime)
    (prices : RateTable) (dto : TickerDto.t) (m : Metric) :
  _convert_ticker ctx timestamp prices dto = Ok (Some m) ->
  ∃ product price rate,
    TickerDto.product dto = Some product
    ∧ price_of prices (tk_site (TickerDto.ticker dto)) (tk_code (TickerDto.ticker dto))
      = Some price
    ∧ price ≠ _ZERO
    ∧ _calculate_evaluation (TickerDto.fund dto) (Some prices) = Ok (Some rate)
    ∧ m = mk_Metric "ticker" (pr_disp product) timestamp (price * rate)%Qc.
Proof.
  unfold _convert_ticker.
  destruct (py_int _) as [minutes|e]; [|discriminate]. simpl res_bind.
  destruct (dt_ltb _ _); [discriminate|].
  destruct (price_of prices _ _) as [price|]; [|discriminate].
  destruct (TickerDto.product dto) as [product|]; [|discriminate].
  case_bool_decide as Hz; [discriminate|].
  destruct (match pr_expr product with Some _ => _ | None => _ end); [discriminate|].
  destruct (_calculate_evaluation (TickerDto.fund dto) (Some prices))
    as [[rate|]|e]; try discriminate.
  simpl. intros [= <-]. eauto 10.
Qed.

(** X6.  A ticker metric is valued at the table's price for its site and
    code, that is at the price of the last record of the batch quoted for
    that key, whichever record of the key it is emitted for. *)
Theorem ticker_metric_valued_at_last_quote (ctx : Context) (timestamp : datetime)
    (tickers : list TickerDto.t) (dto : TickerDto.t) (m : Metric) :
  _convert_ticker ctx timestamp (_calculate_prices (Some tickers)) dto = Ok (Some m) ->
  ∃ last price rate,
    last_ticker (tk_site (TickerDto.ticker dto)) (tk_code (TickerDto.ticker dto)) tickers
      = Some last
    ∧ ticker_price last = Some price
    ∧ _calculate_evaluation (TickerDto.fund dto) (Some (_calculate_prices (Some tickers)))
      = Ok (Some rate)
    ∧ mc_amnt m = (price * rate)%Qc.
Proof.
  intros H. apply convert_ticker_emits in H
    as (product & price & rate & _ & Hprice & _ & Hrate & ->).
  rewrite price_of_calculate_prices in Hprice.
  destruct (last_ticker _ _ tickers) as [last|]; [|discriminate].
  exists last, price, rate. auto.
Qed.

(** The batch quotes BTC on siteA twice, at 10/12 and then at 100/102: the
    metric of the first record is valued at 101. *)
Lemma ticker_metric_valued_at_last_quote_witness :
  ∃ last price rate,
    last_ticker "siteA" "BTC" [btc_quote 30; scenario_ticker] = Some last
    ∧ ticker_price last = Some price
    ∧ _calculate_evaluation (TickerDto.fund (btc_quote 30))
        (Some (_calculate_prices (Some [btc_quote 30; scenario_ticker])))
      = Ok (Some rate)
    ∧ (dec 101 * _ONE)%Qc = (price * rate)%Qc.
Proof.
  apply (ticker_metric_valued_at_last_quote (quiet_context snapshot) snapshot
           [btc_quote 30; scenario_ticker] (btc_quote 30)
           (mk_Metric "ticker" "BTC/USD" snapshot (dec 101 * _ONE)%Qc)).
  by_evaluation.
Defined.

Lemma dt_ltb_astimezone_twice (expiry zone timestamp : datetime) :
  dt_ltb (astimezone (astimezone expiry zone) timestamp) timestamp
    = dt_ltb (astimezone expiry timestamp) timestamp.
Proof. unfold dt_ltb, astimezone. simpl. f_equal. lia. Qed.

(** X8.  The freshness test reads the quote time as a wall clock in the
    snapshot's zone: the zone the quote time came with is ignored, so a
    record whose quote time is given another UTC offset is converted alike.
    The expiry test compares instants: a record whose product expiry is
    expressed in another zone is converted alike. *)
Theorem convert_ticker_zones (ctx : Context) (timestamp : datetime)
    (prices : RateTable) (dto : TickerDto.t) (offset : Z) (zone : datetime) :
  let ticker := TickerDto.ticker dto in
  _convert_ticker ctx timestamp prices
      (TickerDto.mk
         (mk_Ticker (tk_site ticker) (tk_code ticker)
                    (mk_datetime (wall (tk_time ticker)) offset)
                    (tk_ask ticker) (tk_bid ticker) (tk_ltp ticker))
         (TickerDto.product dto) (TickerDto.fund dto))
    = _convert_ticker ctx timestamp prices dto
  ∧ _convert_ticker ctx timestamp prices
      (TickerDto.mk ticker
         ((fun product =>
             mk_Product (pr_disp product)
               ((fun expiry => astimezone expiry zone) <$> pr_expr product))
            <$> TickerDto.product dto)
         (TickerDto.fund dto))
    = _convert_ticker ctx timestamp prices dto.
Proof.
  split; [reflexivity|].
  unfold _convert_ticker. cbn [TickerDto.ticker TickerDto.product TickerDto.fund].
  destruct (py_int _) as [minutes|e]; [|reflexivity]. cbn [res_bind].
  destruct (dt_ltb _ _); [reflexivity|].
  destruct (price_of prices _ _) as [price|]; [|reflexivity].
  destruct (TickerDto.product dto) as [[disp [expiry|]]|]; simpl; try reflexivity.
  now rewrite dt_ltb_astimezone_twice.
Qed.

(** ** Balance and volume metrics *)

Lemma balance_metric_table timestamp (table : RateTable) dto :
  ∃ o, balance_metric timestamp (Some table) dto = Ok o.
Proof.
  unfold balance_metric. rewrite calculate_evaluation_rate_of. simpl.
  destruct (BalanceDto.account dto), (bc_amnt (BalanceDto.balance dto)),
    (rate_of table (BalanceDto.evaluation dto)); eauto.
Qed.

(** X10.  A balance record yields a metric exactly when its account is
    present, its amount is non-null and its evaluation resolves; the metric
    is of kind [balance], named after the account, and its amount is the
    balance times the rate.  On a table that exists, the builder saves one
    batch holding the metrics of the records in their order; a fetch that
    returns nothing saves the empty batch. *)
Theorem balance_metric_emitted (timestamp : datetime) (prices : option RateTable) :
  (∀ dto m, balance_metric timestamp prices dto = Ok (Some m) <->
     ∃ account amount rate,
       BalanceDto.account dto = Some account
       ∧ bc_amnt (BalanceDto.balance dto) = Some amount
       ∧ _calculate_evaluation (BalanceDto.evaluation dto) prices = Ok (Some rate)
       ∧ m = mk_Metric "balance" (ac_disp account) timestamp (amount * rate)%Qc)
  ∧ (∀ ctx (table : RateTable) values st,
       prices = Some table ->
       fetch_balances ctx timestamp = Ok values ->
       calls (snd (process_balance ctx timestamp prices st))
         = calls st
           ++ [SaveMetrics (omap (fun dto => emitted (balance_metric timestamp prices dto))
                                 (default [] values))]).
Proof.
  split.
  - intros dto m. unfold balance_metric.
    destruct (_calculate_evaluation (BalanceDto.evaluation dto) prices)
      as [[rate|]|e]; simpl;
      destruct (BalanceDto.account dto) as [account|],
               (bc_amnt (BalanceDto.balance dto)) as [amount|];
      (split; [intros H; simplify_eq; eauto 10
              |intros (p & a & r & ? & ? & ? & ->); simplify_eq; reflexivity]).
  - intros ctx table values st -> Hfetch.
    rewrite process_balance_eq, builder_calls.
    unfold balance_metrics. rewrite Hfetch. simpl.
    rewrite collect_total by (intros; apply balance_metric_table).
    reflexivity.
Qed.

(** The end-to-end scenario: 5 BTC at the mean of 100 and 102. *)
Lemma balance_metric_emitted_witness :
  calls (snd (process_balance scenario_context snapshot
                (Some (_calculate_prices (Some [scenario_ticker]))) empty_state))
    = [SaveMetrics (omap (fun dto =>
                            emitted (balance_metric snapshot
                                       (Some (_calculate_prices (Some [scenario_ticker])))
                                       dto))
                         [scenario_balance])].
Proof.
  apply (proj2 (balance_metric_emitted snapshot
                  (Some (_calculate_prices (Some [scenario_ticker]))))
           scenario_context _ (Some [scenario_balance]) empty_state eq_refl eq_refl).
Defined.

Lemma volume_metric_table timestamp (table : RateTable) key dto :
  ∃ o, volume_metric timestamp (Some table) key dto = Ok o.
Proof.
  unfold volume_metric. rewrite calculate_evaluation_rate_of. simpl.
  destruct (TransactionDto.product dto), (TransactionDto.tx_grs_fund dto),
    (rate_of table (TransactionDto.ev_fund dto)); eauto.
Qed.

(** X11.  A transaction record yields a volume metric for a window exactly
    when its product is present, its gross fund quantity is non-null and
    its fund chain resolves; the metric is named [volume@<WINDOW>] and its
    amount is the gross fund quantity times the fund rate.  On a table that
    exists, the batch collected holds, for the windows of the last 12
    hours, 24 hours and 30 days in this order, one metric for each record
    fetched for the window that is not skipped. *)
Theorem volume_metric_per_record (timestamp : datetime) (prices : option RateTable) :
  (∀ key dto m, volume_metric timestamp prices key dto = Ok (Some m) <->
     ∃ product amount rate,
       TransactionDto.product dto = Some product
       ∧ TransactionDto.tx_grs_fund dto = Some amount
       ∧ _calculate_evaluation (TransactionDto.ev_fund dto) prices = Ok (Some rate)
       ∧ m = mk_Metric ("volume@" +:+ key) (pr_disp product) timestamp
               (amount * rate)%Qc)
  ∧ (∀ ctx (table : RateTable) h12 d01 d30,
       prices = Some table ->
       fetch_transactions ctx (sub_hours timestamp 12) timestamp = Ok h12 ->
       fetch_transactions ctx (sub_hours timestamp 24) timestamp = Ok d01 ->
       fetch_transactions ctx (sub_days timestamp 30) timestamp = Ok d30 ->
       volume_metrics ctx timestamp prices =
         Ok (omap (fun dto => emitted (volume_metric timestamp prices "12H" dto))
                  (default [] h12)
             ++ omap (fun dto => emitted (volume_metric timestamp prices "01D" dto))
                     (default [] d01)
             ++ omap (fun dto => emitted (volume_metric timestamp prices "30D" dto))
                     (default [] d30))).
Proof.
  split.
  - intros key dto m. unfold volume_metric.
    destruct (_calculate_evaluation (TransactionDto.ev_fund dto) prices)
      as [[rate|]|e]; simpl;
      destruct (TransactionDto.product dto) as [product|],
               (TransactionDto.tx_grs_fund dto) as [amount|];
      (split; [intros H; simplify_eq; eauto 10
              |intros (p & a & r & ? & ? & ? & ->); simplify_eq; reflexivity]).
  - intros ctx table h12 d01 d30 -> H12 H01 H30.
    unfold volume_metrics, volume_windows.
    cbn [collect_windows]. rewrite H12, H01, H30. cbn [res_bind].
    rewrite !collect_total by (intros; apply volume_metric_table).
    cbn [res_bind]. now rewrite app_nil_r.
Qed.

(** One transaction of gross quantity 9 valued at 3, fetched for each of
    the three windows. *)
Lemma volume_metric_per_record_witness :
  volume_metrics
      (set_fetch_transactions (quiet_context snapshot)
         (fun _ _ => Ok (Some [usd_volume])))
      snapshot (Some table23)
    = Ok (map (fun key =>
                 mk_Metric ("volume@" +:+ key) "BTC/USD" snapshot
                   (dec 9 * (_ONE * dec 3))%Qc)
              ["12H"; "01D"; "30D"]).
Proof.
  apply (proj2 (volume_metric_per_record snapshot (Some table23))
           (set_fetch_transactions (quiet_context snapshot)
              (fun _ _ => Ok (Some [usd_volume])))
           table23 _ _ _ eq_refl eq_refl eq_refl eq_refl).
Defined.

(** ** What the builders save *)

Lemma collect_elem {A} (f : A -> res (option Metric)) (values : list A) ms :
  collect f values = Ok ms ->
  ∀ m, m ∈ ms -> ∃ dto, dto ∈ values ∧ f dto = Ok (Some m).
Proof.
  revert ms. induction values as [|dto rest IH]; simpl; intros ms.
  - intros [= <-] m Hm. inversion Hm.
  - destruct (f dto) as [o|e] eqn:Ef; [|discriminate].
    destruct (collect f rest) as [more|e]; [|discriminate].
    intros [= <-] m Hm. apply elem_of_app in Hm as [Hm|Hm].
    + destruct o as [m'|]; [|inversion Hm].
      apply list_elem_of_singleton in Hm as ->. exists dto. split; [left|exact Ef].
    + destruct (IH more eq_refl m Hm) as (d & Hd & Hf).
      exists d. split; [now right|exact Hf].
Qed.

Lemma collect_length {A} (f : A -> res (option Metric)) (values : list A) ms :
  collect f values = Ok ms -> (length ms <= length values)%nat.
Proof.
  revert ms. induction values as [|dto rest IH]; simpl; intros ms.
  - intros [= <-]. reflexivity.
  - destruct (f dto) as [o|e]; [|discriminate].
    destruct (collect f rest) as [more|e]; [|discriminate].
    intros [= <-]. rewrite length_app. specialize (IH more eq_refl).
    destruct o; simpl; lia.
Qed.

Lemma collect_windows_elem ctx timestamp f windows ms :
  collect_windows ctx timestamp f windows = Ok ms ->
  ∀ m, m ∈ ms -> ∃ key val dto, (key, val) ∈ windows ∧ f key dto = Ok (Some m).
Proof.
  revert ms. induction windows as [|[key val] rest IH]; simpl; intros ms.
  - intros [= <-] m Hm. inversion Hm.
  - destruct (fetch_transactions ctx val timestamp) as [values|e]; [|discriminate].
    simpl. destruct (collect (f key) (default [] values)) as [metrics|e] eqn:Ec;
      [|discriminate].
    simpl. destruct (collect_windows ctx timestamp f rest) as [more|e]; [|discriminate].
    simpl. intros [= <-] m Hm. apply elem_of_app in Hm as [Hm|Hm].
    + destruct (collect_elem _ _ _ Ec m Hm) as (dto & _ & Hf).
      exists key, val, dto. split; [left|exact Hf].
    + destruct (IH more eq_refl m Hm) as (k & v & d & Hk & Hf).
      exists k, v, d. split; [now right|exact Hf].
Qed.

Lemma balance_metric_shape timestamp prices dto m :
  balance_metric timestamp prices dto = Ok (Some m) ->
  mc_time m = timestamp ∧ mc_type m = "balance".
Proof.
  unfold balance_metric.
  destruct (_calculate_evaluation _ prices) as [[rate|]|e]; simpl;
    destruct (BalanceDto.account dto), (bc_amnt (BalanceDto.balance dto));
    intros H; simplify_eq; auto.
Qed.

Lemma position_upl_shape timestamp prices dto m :
  position_upl timestamp prices dto = Ok (Some m) ->
  mc_time m = timestamp ∧ mc_type m = "position@upl".
Proof.
  unfold position_upl.
  destruct (_calculate_evaluation _ prices) as [[rate|]|e]; simpl;
    destruct (PositionDto.product dto), (ps_fund (PositionDto.position dto));
    intros H; simplify_eq; auto.
Qed.

Lemma position_qty_shape timestamp prices dto m :
  position_qty timestamp prices dto = Ok (Some m) ->
  mc_time m = timestamp ∧ mc_type m = "position@qty".
Proof.
  unfold position_qty.
  destruct (_calculate_evaluation _ prices) as [[rate|]|e]; simpl;
    destruct (PositionDto.product dto), (ps_inst (PositionDto.position dto));
    intros H; simplify_eq; auto.
Qed.

Lemma trade_metric_shape timestamp prices key dto m :
  trade_metric timestamp prices key dto = Ok (Some m) ->
  mc_time m = timestamp ∧ mc_type m = "trade@" +:+ key.
Proof.
  unfold trade_metric.
  destruct (_calculate_evaluation (TransactionDto.ev_inst dto) prices) as [[r1|]|e1];
    destruct (_calculate_evaluation (TransactionDto.ev_fund dto) prices) as [[r2|]|e2];
    simpl;
    destruct (TransactionDto.product dto), (TransactionDto.tx_net_inst dto),
      (TransactionDto.tx_net_fund dto);
    intros H; simplify_eq; auto.
Qed.

Lemma volume_metric_shape timestamp prices key dto m :
  volume_metric timestamp prices key dto = Ok (Some m) ->
  mc_time m = timestamp ∧ mc_type m = "volume@" +:+ key.
Proof.
  unfold volume_metric.
  destruct (_calculate_evaluation _ prices) as [[rate|]|e]; simpl;
    destruct (TransactionDto.product dto), (TransactionDto.tx_grs_fund dto);
    intros H; simplify_eq; auto.
Qed.

Lemma position_metrics_split timestamp prices values ms :
  position_metrics timestamp prices values = Ok ms ->
  ∃ upl qty,
    ms = upl ++ qty
    ∧ collect (position_upl timestamp prices) (default [] values) = Ok upl
    ∧ collect (position_qty timestamp prices) (default [] values) = Ok qty.
Proof.
  unfold position_metrics.
  destruct (collect (position_upl timestamp prices) _) as [upl|e]; [|discriminate].
  simpl. destruct (collect (position_qty timestamp prices) _) as [qty|e]; [|discriminate].
  simpl. intros [= <-]. eauto.
Qed.

Lemma thread_metrics_shape (ctx : Context) (th : thread) ms m :
  thread_metrics ctx th = Ok ms -> m ∈ ms ->
  mc_time m = th_timestamp th ∧ mc_type m ∈ kinds_of (th_target th).
Proof.
  unfold thread_metrics. destruct th as [[] timestamp prices];
    cbn [th_target th_timestamp th_prices kinds_of].
  - unfold balance_metrics.
    destruct (fetch_balances ctx timestamp) as [values|e]; [|discriminate]. simpl.
    intros Hc Hm. destruct (collect_elem _ _ _ Hc m Hm) as (dto & _ & Hf).
    apply balance_metric_shape in Hf as [-> ->]. split; [reflexivity|left].
  - destruct (fetch_positions ctx timestamp) as [values|e]; [|discriminate]. simpl.
    intros Hc Hm. apply position_metrics_split in Hc as (upl & qty & -> & Hu & Hq).
    apply elem_of_app in Hm as [Hm|Hm].
    + destruct (collect_elem _ _ _ Hu m Hm) as (dto & _ & Hf).
      apply position_upl_shape in Hf as [-> ->]. split; [reflexivity|left].
    + destruct (collect_elem _ _ _ Hq m Hm) as (dto & _ & Hf).
      apply position_qty_shape in Hf as [-> ->]. split; [reflexivity|right; left].
  - unfold trade_metrics. destruct (py_int _) as [offset|e]; [|discriminate].
    cbn [res_bind].
    intros Hc Hm.
    destruct (collect_windows_elem _ _ _ _ _ Hc m Hm) as (key & val & dto & Hk & Hf).
    apply trade_metric_shape in Hf as [-> ->]. split; [reflexivity|].
    unfold trade_windows in Hk.
    repeat (apply elem_of_cons in Hk as [[= -> _]|Hk];
            [simpl; auto using list_elem_of_here, list_elem_of_further|]).
    inversion Hk.
  - unfold volume_metrics. intros Hc Hm.
    destruct (collect_windows_elem _ _ _ _ _ Hc m Hm) as (key & val & dto & Hk & Hf).
    apply volume_metric_shape in Hf as [-> ->]. split; [reflexivity|].
    unfold volume_windows in Hk.
    repeat (apply elem_of_cons in Hk as [[= -> _]|Hk];
            [simpl; auto using list_elem_of_here, list_elem_of_further|]).
    inversion Hk.
Qed.

Lemma new_calls_run (ctx : Context) (th : thread) (st : State) :
  new_calls st (snd (run ctx th st)) = thread_calls ctx th.
Proof. unfold new_calls. now rewrite run_calls, drop_app_length. Qed.

(** X12.  Every metric a builder thread saves carries the timestamp the
    thread was started for, and its kind is one of the kinds of its
    builder: [balance]; [position@upl] or [position@qty]; [trade@DAY],
    [trade@MTD] or [trade@YTD]; [volume@12H], [volume@01D] or
    [volume@30D]. *)
Theorem saved_metrics_time_and_kind (ctx : Context) (th : thread) (st : State)
    (ms : list Metric) (m : Metric) :
  SaveMetrics ms ∈ new_calls st (snd (run ctx th st)) ->
  m ∈ ms ->
  mc_time m = th_timestamp th ∧ mc_type m ∈ kinds_of (th_target th).
Proof.
  rewrite new_calls_run. unfold thread_calls, saved.
  destruct (thread_metrics ctx th) as [ms'|e] eqn:E.
  - intros Hin Hm. apply list_elem_of_singleton in Hin as [= ->].
    exact (thread_metrics_shape ctx th ms' m E Hm).
  - intros Hin. inversion Hin.
Qed.

Lemma saved_metrics_time_and_kind_witness :
  mc_time (mk_Metric "balance" "wallet" snapshot (dec 505)) = snapshot
  ∧ "balance" ∈ ["balance"].
Proof.
  apply (saved_metrics_time_and_kind scenario_context
           (Thread Tprocess_balance snapshot
                   (Some (_calculate_prices (Some [scenario_ticker]))))
           empty_state
           [mk_Metric "balance" "wallet" snapshot (dec 505)]
           (mk_Metric "balance" "wallet" snapshot (dec 505))).
  - apply list_elem_of_singleton. by_evaluation.
  - left.
Defined.

(** X13.  In the batch of the position builder every [position@upl] metric
    comes before every [position@qty] metric, and there is at most one
    metric of each of the two kinds per position record. *)
Theorem position_metrics_order (timestamp : datetime) (prices : option RateTable)
    (values : option (list PositionDto.t)) (ms : list Metric) :
  position_metrics timestamp prices values = Ok ms ->
  ∃ upl qty,
    ms = upl ++ qty
    ∧ Forall (fun m => mc_type m = "position@upl") upl
    ∧ Forall (fun m => mc_type m = "position@qty") qty
    ∧ (length upl <= length (default [] values))%nat
    ∧ (length qty <= length (default [] values))%nat.
Proof.
  intros H. apply position_metrics_split in H as (upl & qty & -> & Hu & Hq).
  exists upl, qty. split; [reflexivity|]. repeat split.
  - apply list.Forall_forall. intros m Hm.
    destruct (collect_elem _ _ _ Hu m Hm) as (dto & _ & Hf).
    now apply position_upl_shape in Hf.
  - apply list.Forall_forall. intros m Hm.
    destruct (collect_elem _ _ _ Hq m Hm) as (dto & _ & Hf).
    now apply position_qty_shape in Hf.
  - exact (collect_length _ _ _ Hu).
  - exact (collect_length _ _ _ Hq).
Qed.

Lemma position_metrics_order_witness :
  ∃ upl qty,
    [mk_Metric "position@upl" "BTC/USD" snapshot (dec 5 * (_ONE * dec 2))%Qc]
      = upl ++ qty
    ∧ Forall (fun m => mc_type m = "position@upl") upl
    ∧ Forall (fun m => mc_type m = "position@qty") qty
    ∧ (length upl <= 1)%nat
    ∧ (length qty <= 1)%nat.
Proof.
  apply (position_metrics_order snapshot (Some table23) (Some [btc_position])).
  reflexivity.
Defined.

Lemma try_except_warnings_ok (tag : string) (body : M unit) (st st' : State) u :
  body st = (Ok u, st') -> warnings (snd (try_except tag body st)) = warnings st'.
Proof. unfold try_except. now intros ->. Qed.

Lemma try_except_warnings_raise (tag : string) (body : M unit) (st st' : State) e :
  body st = (Raise e, st') ->
  warnings (snd (try_except tag body st)) = warnings st' ++ [(tag, e)].
Proof. unfold try_except. now intros ->. Qed.

(** X14.  A position batch is saved whole or not at all: when the body of
    either loop raises on some record, the builder makes no storage call,
    whatever the other records would have yielded, and logs one warning
    under [Position]. *)
Theorem position_batch_all_or_nothing (ctx : Context) (timestamp : datetime)
    (prices : option RateTable) (st : State)
    (values : option (list PositionDto.t)) (dto : PositionDto.t) (e : exn) :
  fetch_positions ctx timestamp = Ok values ->
  dto ∈ default [] values ->
  position_upl timestamp prices dto = Raise e
    ∨ position_qty timestamp prices dto = Raise e ->
  calls (snd (process_position ctx timestamp prices st)) = calls st
  ∧ ∃ e', warnings (snd (process_position ctx timestamp prices st))
          = warnings st ++ [("Position", e')].
Proof.
  intros Hfetch Hin Hraise.
  assert (Hm : ∃ e', position_metrics timestamp prices values = Raise e').
  { unfold position_metrics. destruct Hraise as [Hu|Hq].
    - destruct (collect_raises _ _ _ _ Hin Hu) as [e' ->]. simpl. eauto.
    - destruct (collect (position_upl timestamp prices) _) as [upl|e']; simpl; [|eauto].
      destruct (collect_raises _ _ _ _ Hin Hq) as [e' ->]. simpl. eauto. }
  destruct Hm as [e' Hm]. split.
  - rewrite process_position_eq, builder_calls, Hfetch. simpl. rewrite Hm.
    simpl. now rewrite app_nil_r.
  - exists e'. unfold process_position.
    apply try_except_warnings_raise.
    unfold position_body, lift_bind. now rewrite Hfetch, Hm.
Qed.

(** Without a table, a record whose chains have no leg would yield its two
    metrics; a second record with a configured leg makes the lookup raise
    and nothing is saved. *)
Lemma position_batch_all_or_nothing_witness :
  calls (snd (process_position
                (set_fetch_positions (quiet_context snapshot)
                   (fun _ => Ok (Some [plain_position; btc_position])))
                snapshot None empty_state)) = []
  ∧ ∃ e', warnings (snd (process_position
                (set_fetch_positions (quiet_context snapshot)
                   (fun _ => Ok (Some [plain_position; btc_position])))
                snapshot None empty_state)) = [] ++ [("Position", e')].
Proof.
  apply (position_batch_all_or_nothing
           (set_fetch_positions (quiet_context snapshot)
              (fun _ => Ok (Some [plain_position; btc_position])))
           snapshot None empty_state
           (Some [plain_position; btc_position]) btc_position AttributeError).
  - reflexivity.
  - right. left.
  - left. reflexivity.
Defined.

Lemma builder_warnings (ctx : Context) (tag : string) (metrics : res (list Metric))
    (st : State) :
  ∃ w, warnings (snd (try_except tag (lift_bind metrics (save_metrics ctx)) st))
       = warnings st ++ w
       ∧ (length w <= 1)%nat
       ∧ (w = [] -> ∃ ms, metrics = Ok ms).
Proof.
  unfold try_except, lift_bind. destruct metrics as [ms|e]; simpl.
  - destruct (save_metrics_result ctx ms); simpl.
    + exists []. rewrite app_nil_r. eauto.
    + eexists [_]. split; [reflexivity|]. split; [simpl; lia|discriminate].
  - eexists [_]. split; [reflexivity|]. split; [simpl; lia|discriminate].
Qed.

(** X15.  A builder thread only appends to the storage log, at most one
    call, and that call is a save, never a delete; it returns normally and
    logs at most one warning, and when it logs none it has saved its
    batch. *)
Theorem builder_saves_at_most_once (ctx : Context) (th : thread) (st : State) :
  fst (run ctx th st) = Ok tt
  ∧ calls (snd (run ctx th st)) = calls st ++ new_calls st (snd (run ctx th st))
  ∧ (new_calls st (snd (run ctx th st)) = []
     ∨ ∃ ms, new_calls st (snd (run ctx th st)) = [SaveMetrics ms])
  ∧ ∃ w, warnings (snd (run ctx th st)) = warnings st ++ w
         ∧ (length w <= 1)%nat
         ∧ (w = [] -> ∃ ms, new_calls st (snd (run ctx th st)) = [SaveMetrics ms]).
Proof.
  split; [apply run_ok|]. rewrite new_calls_run.
  split; [apply run_calls|].
  unfold thread_calls, saved. split.
  - destruct (thread_metrics ctx th); eauto.
  - assert (Hw : ∃ w, warnings (snd (run ctx th st)) = warnings st ++ w
                      ∧ (length w <= 1)%nat
                      ∧ (w = [] -> ∃ ms, thread_metrics ctx th = Ok ms)).
    { unfold run, thread_metrics. destruct (th_target th).
      - rewrite process_balance_eq. apply builder_warnings.
      - rewrite process_position_eq. apply builder_warnings.
      - apply builder_warnings.
      - apply builder_warnings. }
    destruct Hw as (w & Hw & Hlen & Hsaved).
    exists w. split; [exact Hw|]. split; [exact Hlen|].
    intros Hnil. destruct (Hsaved Hnil) as [ms ->]. eauto.
Qed.

(** ** The tickers of a snapshot *)

Lemma ticker_batch_shape (ctx : Context) (timestamp : datetime)
    (values : option (list TickerDto.t)) (ms : list Metric) :
  collect (_convert_ticker ctx timestamp (_calculate_prices values)) (default [] values)
    = Ok ms ->
  (length ms <= length (default [] values))%nat
  ∧ ∀ m, m ∈ ms -> mc_type m = "ticker" ∧ mc_time m = timestamp.
Proof.
  intros Hc. split; [exact (collect_length _ _ _ Hc)|].
  intros m Hm. destruct (collect_elem _ _ _ Hc m Hm) as (dto & _ & Hf).
  apply convert_ticker_emits in Hf as (product & price & rate & _ & _ & _ & _ & ->).
  auto.
Qed.

(** X16.  When [fetch_tickers] raises, [process_ticker] logs it under
    [Ticker], makes no storage call and hands no table on.  When it returns,
    the table handed on is the one built from the fetched records, whether
    or not converting or saving them fails afterwards, and at most one
    batch is saved: it holds at most one metric per record, each of kind
    [ticker] and stamped with the snapshot timestamp. *)
Theorem process_ticker_hands_on_table (ctx : Context) (timestamp : datetime)
    (st : State) :
  (∀ e, fetch_tickers ctx timestamp true = Raise e ->
     process_ticker ctx timestamp st = (None, warn "Ticker" e st))
  ∧ (∀ values, fetch_tickers ctx timestamp true = Ok values ->
       fst (process_ticker ctx timestamp st) = Some (_calculate_prices values)
       ∧ (new_calls st (snd (process_ticker ctx timestamp st)) = []
          ∨ ∃ ms, new_calls st (snd (process_ticker ctx timestamp st)) = [SaveMetrics ms]
                  ∧ (length ms <= length (default [] values))%nat
                  ∧ ∀ m, m ∈ ms -> mc_type m = "ticker" ∧ mc_time m = timestamp)).
Proof.
  split.
  - intros e He. unfold process_ticker. now rewrite He.
  - intros values Hv. unfold process_ticker, new_calls. rewrite Hv.
    destruct (collect _ _) as [ms|e] eqn:Hc.
    + unfold save_metrics.
      destruct (save_metrics_result ctx ms) as [u|e]; simpl; (split; [reflexivity|]);
        right; exists ms; rewrite drop_app_length;
        (split; [reflexivity|exact (ticker_batch_shape _ _ _ _ Hc)]).
    + simpl. split; [reflexivity|]. left. now rewrite drop_all.
Qed.

(** Saving the ticker batch fails: the table is handed on all the same. *)
Lemma process_ticker_hands_on_table_witness :
  fst (process_ticker
         (mk_Context snapshot (fun _ _ default => default)
            (fun _ _ => Ok (Some [scenario_ticker])) (fun _ => Ok None)
            (fun _ => Ok None) (fun _ _ => Ok None)
            (fun _ => Raise (StorageError "save")) (fun _ _ => Ok 0))
         snapshot empty_state)
    = Some (_calculate_prices (Some [scenario_ticker])).
Proof.
  apply (proj2 (process_ticker_hands_on_table
                  (mk_Context snapshot (fun _ _ default => default)
                     (fun _ _ => Ok (Some [scenario_ticker])) (fun _ => Ok None)
                     (fun _ => Ok None) (fun _ _ => Ok None)
                     (fun _ => Raise (StorageError "save")) (fun _ _ => Ok 0))
                  snapshot empty_state)
           (Some [scenario_ticker]) eq_refl).
Defined.

(** ** The snapshot fan-out, continued *)

(** X17.  When the property [timestamp] is null, [process_metric] raises
    [TypeError] before anything is fetched or saved; when it is zero or
    negative there is no timestamp to process, and the run ends normally
    without a storage call or a warning. *)
Theorem process_metric_without_timestamps (ctx : Context)
    (schedule : list thread -> list thread)
    (default_time : option datetime) (default_count : Z) (st : State) :
  (get_property ctx _ID "timestamp" (Some default_count) = None ->
     process_metric ctx schedule default_time default_count st = (Raise TypeError, st))
  ∧ (∀ count, get_property ctx _ID "timestamp" (Some default_count) = Some count ->
       count <= 0 -> schedule [] = [] ->
       process_metric ctx schedule default_time default_count st = (Ok tt, st)).
Proof.
  split.
  - intros H. unfold process_metric. now rewrite H.
  - intros count H Hle Hs. unfold process_metric. rewrite H. cbn [py_int].
    assert (E : seqZ 0 count = []).
    { unfold seqZ. now rewrite Z2Nat.nonpos. }
    rewrite E. simpl. now rewrite Hs.
Qed.

Lemma process_metric_without_timestamps_witness :
  process_metric
      (set_get_property scenario_context (fun _ _ _ => Some (-2)))
      reverse None 3 empty_state
    = (Ok tt, empty_state).
Proof.
  apply (proj2 (process_metric_without_timestamps
                  (set_get_property scenario_context (fun _ _ _ => Some (-2)))
                  reverse None 3 empty_state)
           (-2) eq_refl); [lia|reflexivity].
Defined.

Lemma elem_of_flat_map {A B} (f : A -> list B) (l : list A) (y : B) :
  y ∈ flat_map f l <-> ∃ x, x ∈ l ∧ y ∈ f x.
Proof.
  rewrite list_elem_of_In, in_flat_map. split.
  - intros (x & Hx & Hy). exists x. now rewrite !list_elem_of_In.
  - intros (x & Hx & Hy). exists x. now rewrite <- !list_elem_of_In.
Qed.

Lemma threads_of_timestamp (ctx : Context) (timestamps : list datetime) (th : thread) :
  th ∈ threads_of ctx timestamps -> th_timestamp th ∈ timestamps.
Proof.
  unfold threads_of. rewrite elem_of_flat_map. intros (timestamp & Hin & Hth).
  repeat (apply elem_of_cons in Hth as [->|Hth]; [exact Hin|]).
  inversion Hth.
Qed.

Lemma snapshot_timestamps_elem (ctx : Context) default_time count timestamp :
  timestamp ∈ snapshot_timestamps ctx default_time count ->
  ∃ i, 0 <= i < count
       ∧ timestamp
         = sub_minutes (replace_second0 (default (get_now ctx) default_time)) i.
Proof.
  unfold snapshot_timestamps. rewrite list_elem_of_In, in_map_iff.
  intros (i & <- & Hi). apply list_elem_of_In, elem_of_seqZ in Hi.
  exists i. split; [lia|reflexivity].
Qed.

Lemma sub_minutes_aligned (dt : datetime) (i : Z) :
  wall (sub_minutes (replace_second0 dt) i) mod usec_per_minute = 0.
Proof.
  unfold sub_minutes, replace_second0. simpl.
  assert (Hm : usec_per_minute ≠ 0) by (unfold usec_per_minute; lia).
  rewrite <- Zminus_mod_idemp_l.
  rewrite (Zminus_mod (wall dt)), Z.mod_mod, Z.sub_diag by exact Hm.
  rewrite Z.mod_0_l by exact Hm.
  rewrite Zminus_mod, Z.mod_mul, Z.mod_0_l by exact Hm.
  reflexivity.
Qed.

Lemma saved_by_snapshot (ctx : Context) (schedule : list thread -> list thread)
    default_time default_count count (st : State) ms m :
  (∀ threads, schedule threads ≡ₚ threads) ->
  py_int (get_property ctx _ID "timestamp" (Some default_count)) = Ok count ->
  SaveMetrics ms
    ∈ new_calls st (snd (process_metric ctx schedule default_time default_count st)) ->
  m ∈ ms ->
  mc_time m ∈ snapshot_timestamps ctx default_time count.
Proof.
  intros Hs Hcount Hin Hm. unfold new_calls in Hin.
  destruct (process_metric_calls ctx schedule default_time default_count count st Hcount)
    as [_ Hcalls].
  rewrite Hcalls, drop_app_length in Hin.
  apply elem_of_app in Hin as [Hin|Hin].
  - unfold ticker_calls in Hin. apply elem_of_flat_map in Hin as (ts & Hts & Hin).
    unfold saved, ticker_metrics in Hin.
    destruct (fetch_tickers ctx ts true) as [values|e]; [|inversion Hin]. simpl in Hin.
    destruct (collect _ _) as [ms'|e] eqn:Hc; [|inversion Hin].
    apply list_elem_of_singleton in Hin as [= ->].
    destruct (ticker_batch_shape _ _ _ _ Hc) as [_ Hshape].
    destruct (Hshape m Hm) as [_ ->]. exact Hts.
  - apply elem_of_flat_map in Hin as (th & Hth & Hin).
    rewrite Hs in Hth. apply threads_of_timestamp in Hth.
    unfold thread_calls, saved in Hin.
    destruct (thread_metrics ctx th) as [ms'|e] eqn:E; [|inversion Hin].
    apply list_elem_of_singleton in Hin as [= ->].
    destruct (thread_metrics_shape ctx th ms' m E Hm) as [-> _]. exact Hth.
Qed.

(** X18.  Every metric saved by a snapshot run is stamped on a whole
    minute: its time is the base time cut to the minute, less a whole number
    of minutes from 0 up to the count of timestamps excluded, in the zone of
    the base time. *)
Theorem process_metric_minute_aligned (ctx : Context)
    (schedule : list thread -> list thread)
    (default_time : option datetime) (default_count count : Z) (st : State)
    (ms : list Metric) (m : Metric) :
  (∀ threads, schedule threads ≡ₚ threads) ->
  py_int (get_property ctx _ID "timestamp" (Some default_count)) = Ok count ->
  SaveMetrics ms
    ∈ new_calls st (snd (process_metric ctx schedule default_time default_count st)) ->
  m ∈ ms ->
  let base_time := default (get_now ctx) default_time in
  wall (mc_time m) mod usec_per_minute = 0
  ∧ utcoffset (mc_time m) = utcoffset base_time
  ∧ wall base_time - count * usec_per_minute < wall (mc_time m) <= wall base_time
  ∧ ∃ i, 0 <= i < count ∧ mc_time m = sub_minutes (replace_second0 base_time) i.
Proof.
  intros Hs Hcount Hin Hm base_time.
  pose proof (saved_by_snapshot ctx schedule default_time default_count count st
                ms m Hs Hcount Hin Hm) as Hts.
  apply snapshot_timestamps_elem in Hts as (i & Hi & Hts). fold base_time in Hts.
  rewrite Hts. split; [apply sub_minutes_aligned|]. split; [reflexivity|].
  split; [|eauto].
  unfold sub_minutes, replace_second0. simpl.
  assert (Hmod : 0 <= wall base_time mod usec_per_minute < usec_per_minute)
    by (apply Z.mod_pos_bound; unfold usec_per_minute; lia).
  unfold usec_per_minute in *. lia.
Qed.

(** The balance of the end-to-end scenario, saved by a run started 42
    seconds after 10:30, is stamped 10:30. *)
Lemma process_metric_minute_aligned_witness :
  wall snapshot mod usec_per_minute = 0
  ∧ utcoffset snapshot = utcoffset (mk_datetime (wall snapshot + 42000000) 0)
  ∧ wall snapshot + 42000000 - 1 * usec_per_minute < wall snapshot
      <= wall snapshot + 42000000
  ∧ ∃ i, 0 <= i < 1
         ∧ snapshot
           = sub_minutes (replace_second0 (mk_datetime (wall snapshot + 42000000) 0)) i.
Proof.
  apply (process_metric_minute_aligned scenario_context reverse
           (Some (mk_datetime (wall snapshot + 42000000) 0)) 3 1 empty_state
           [mk_Metric "balance" "wallet" snapshot (dec 505)]
           (mk_Metric "balance" "wallet" snapshot (dec 505))
           (fun threads => reverse_Permutation threads) eq_refl).
  - by_evaluation.
  - left.
Defined.

Lemma flat_map_length_le {A B} (f : A -> list B) (l : list A) (n : nat) :
  (∀ x, length (f x) <= n)%nat -> (length (flat_map f l) <= n * length l)%nat.
Proof.
  intros Hf. induction l as [|x l IH]; simpl; [lia|].
  rewrite length_app. specialize (Hf x). lia.
Qed.

Lemma threads_of_length (ctx : Context) (timestamps : list datetime) :
  length (threads_of ctx timestamps) = (4 * length timestamps)%nat.
Proof.
  unfold threads_of. induction timestamps as [|ts rest IH]; simpl; [reflexivity|].
  rewrite IH. lia.
Qed.

Lemma saved_is_save (metrics : res (list Metric)) :
  (length (saved metrics) <= 1)%nat ∧ Forall is_save (saved metrics).
Proof.
  destruct metrics; simpl; split; try lia; repeat constructor.
Qed.

(** X19.  A snapshot run for [count] timestamps makes at most five storage
    calls per timestamp (the tickers and the four builders), all of them
    saves: it never deletes. *)
Theorem process_metric_call_bound (ctx : Context)
    (schedule : list thread -> list thread)
    (default_time : option datetime) (default_count count : Z) (st : State) :
  (∀ threads, schedule threads ≡ₚ threads) ->
  py_int (get_property ctx _ID "timestamp" (Some default_count)) = Ok count ->
  (length (new_calls st (snd (process_metric ctx schedule default_time default_count st)))
     <= 5 * Z.to_nat count)%nat
  ∧ Forall is_save
      (new_calls st (snd (process_metric ctx schedule default_time default_count st))).
Proof.
  intros Hs Hcount. unfold new_calls.
  destruct (process_metric_calls ctx schedule default_time default_count count st Hcount)
    as [_ ->].
  rewrite drop_app_length.
  set (timestamps := snapshot_timestamps ctx default_time count).
  assert (Hlen : length timestamps = Z.to_nat count).
  { unfold timestamps, snapshot_timestamps. now rewrite length_map, length_seqZ. }
  split.
  - rewrite length_app.
    pose proof (flat_map_length_le
                  (fun ts => saved (ticker_metrics ctx ts)) timestamps 1
                  (fun ts => proj1 (saved_is_save _))) as H1.
    pose proof (flat_map_length_le (thread_calls ctx)
                  (schedule (threads_of ctx timestamps)) 1
                  (fun th => proj1 (saved_is_save _))) as H2.
    rewrite (Permutation_length (Hs _)), threads_of_length in H2.
    unfold ticker_calls. lia.
  - apply Forall_app. split; apply list.Forall_forall; intros c Hc;
      apply elem_of_flat_map in Hc as (x & _ & Hc);
      [pose proof (proj2 (saved_is_save (ticker_metrics ctx x))) as Hf
      |pose proof (proj2 (saved_is_save (thread_metrics ctx x))) as Hf];
      rewrite list.Forall_forall in Hf; exact (Hf c Hc).
Qed.

Lemma process_metric_call_bound_witness :
  (length (new_calls empty_state
             (snd (process_metric scenario_context reverse None 3 empty_state)))
     <= 5 * Z.to_nat 1)%nat
  ∧ Forall is_save
      (new_calls empty_state
         (snd (process_metric scenario_context reverse None 3 empty_state))).
Proof.
  apply (process_metric_call_bound scenario_context reverse None 3 1 empty_state
           (fun threads => reverse_Permutation threads) eq_refl).
Defined.

(** ** The purge, continued *)

Lemma tier_older_than_an_hour (ctx : Context) idx hours minutes :
  Forall (deletes_older_than_an_hour (get_now ctx)) (tier ctx idx hours minutes).
Proof.
  unfold tier. destruct (get_property ctx _ID _ _) as [h|]; repeat constructor.
  unfold usec_per_hour, usec_per_minute. simpl. lia.
Qed.

Lemma tiers_from_older_than_an_hour (ctx : Context) idx intervals :
  Forall (deletes_older_than_an_hour (get_now ctx)) (tiers_from ctx idx intervals).
Proof.
  revert idx. induction intervals as [|entry rest IH]; intros idx; simpl.
  - constructor.
  - apply Forall_app. split; [apply tier_older_than_an_hour|apply IH].
Qed.

Lemma tier_length (ctx : Context) idx hours minutes :
  (length (tier ctx idx hours minutes) <= 1)%nat.
Proof. unfold tier. destruct (get_property ctx _ID _ _); simpl; lia. Qed.

Lemma tiers_from_length (ctx : Context) idx intervals :
  (length (tiers_from ctx idx intervals) <= length intervals)%nat.
Proof.
  revert idx. induction intervals as [|entry rest IH]; intros idx; simpl; [lia|].
  rewrite length_app. pose proof (tier_length ctx idx entry.1 entry.2).
  specialize (IH (S idx)). lia.
Qed.

(** X20.  Whatever the tiers, their overrides and the storage, a purge only
    issues bulk deletes, at most one per tier and in the order of the
    tiers, each with a cutoff at least one hour before the current time and
    in its zone; it saves nothing and logs no warning. *)
Theorem purge_metric_spares_last_hour (ctx : Context)
    (intervals : list (Z * list Z)) (st : State) :
  ∃ issued,
    calls (snd (purge_metric ctx intervals st)) = calls st ++ issued
    ∧ warnings (snd (purge_metric ctx intervals st)) = warnings st
    ∧ issued `prefix_of` tiers_from ctx 0 intervals
    ∧ (length issued <= length intervals)%nat
    ∧ Forall (deletes_older_than_an_hour (get_now ctx)) issued.
Proof.
  unfold purge_metric.
  destruct (purge_loop_outcome ctx intervals 0%nat st)
    as (issued & Hcalls & Hwarn & _).
  pose proof (purge_loop_prefix _ _ _ _ _ Hcalls) as Hpre.
  exists issued. split; [exact Hcalls|]. split; [exact Hwarn|].
  split; [exact Hpre|]. split.
  - apply prefix_length in Hpre.
    pose proof (tiers_from_length ctx 0 intervals). lia.
  - destruct Hpre as [rest Hrest].
    pose proof (tiers_from_older_than_an_hour ctx 0 intervals) as Hall.
    rewrite Hrest in Hall. now apply Forall_app in Hall as [Hall _].
Qed.

(** X21.  A purge ends at the first tier whose bulk delete raises, or whose
    cutoff cannot be computed because the hours reach beyond the dates that
    exist ([OverflowError], raised before the delete is made): the
    exception leaves [purge_metric], every delete planned before that tier
    was made and carried out, and the tiers after it are not processed.
    When the purge ends normally, every planned delete was made and
    carried out. *)
Theorem purge_metric_stops_at_failure (ctx : Context)
    (intervals : list (Z * list Z)) (st : State) :
  match fst (purge_metric ctx intervals st) with
  | Ok _ =>
      new_calls st (snd (purge_metric ctx intervals st)) = tiers_from ctx 0 intervals
      ∧ Forall (fun c => cutoff_in_range (get_now ctx) c ∧ delete_succeeds ctx c)
               (tiers_from ctx 0 intervals)
  | Raise e =>
      ∃ before failing after,
        tiers_from ctx 0 intervals = before ++ [failing] ++ after
        ∧ Forall (fun c => cutoff_in_range (get_now ctx) c ∧ delete_succeeds ctx c)
                 before
        ∧ (new_calls st (snd (purge_metric ctx intervals st)) = before ++ [failing]
           ∧ cutoff_in_range (get_now ctx) failing
           ∧ delete_raises ctx e failing
           ∨ new_calls st (snd (purge_metric ctx intervals st)) = before
             ∧ ¬ cutoff_in_range (get_now ctx) failing
             ∧ e = OverflowError)
  end.
Proof.
  unfold purge_metric, new_calls.
  destruct (purge_loop_outcome ctx intervals 0%nat st)
    as (issued & Hcalls & _ & Hout).
  rewrite Hcalls, drop_app_length.
  destruct (fst (purge_loop ctx (get_now ctx) 0 intervals st)) as [u|e].
  - destruct Hout as [-> Hok]. auto.
  - destruct Hout as (before & failing & after & Heq & Hok & Hend).
    exists before, failing, after. auto.
Qed.

(** The storage refuses every delete reaching into the last two days: the
    tiers of 8 years and of 48 hours are purged, the tier of 36 hours
    raises and the tiers of 24 and 12 hours are not processed. *)
Lemma purge_metric_stops_at_failure_witness :
  ∃ before failing after,
    tiers_from (set_delete_metrics_result (quiet_context snapshot) refuse_recent)
        0 default_intervals
      = before ++ [failing] ++ after
    ∧ Forall (fun c =>
                cutoff_in_range snapshot c
                ∧ delete_succeeds
                    (set_delete_metrics_result (quiet_context snapshot) refuse_recent) c)
             before
    ∧ (new_calls empty_state
         (snd (purge_metric
                 (set_delete_metrics_result (quiet_context snapshot) refuse_recent)
                 default_intervals empty_state))
         = before ++ [failing]
       ∧ cutoff_in_range snapshot failing
       ∧ delete_raises
           (set_delete_metrics_result (quiet_context snapshot) refuse_recent)
           (StorageError "delete") failing
       ∨ new_calls empty_state
           (snd (purge_metric
                   (set_delete_metrics_result (quiet_context snapshot) refuse_recent)
                   default_intervals empty_state))
           = before
         ∧ ¬ cutoff_in_range snapshot failing
         ∧ StorageError "delete" = OverflowError).
Proof.
  exact (purge_metric_stops_at_failure
           (set_delete_metrics_result (quiet_context snapshot) refuse_recent)
           default_intervals empty_state).
Defined.

(** With the 48-hour tier overridden to 20000000 hours the cutoff would lie
    before the year 1: the purge raises [OverflowError] after the delete of
    the first tier, although no delete has raised. *)
Example purge_metric_overflow :
  purge_metric
      (set_get_property (quiet_context snapshot)
         (fun _ key default =>
            if String.eqb key "purge_1" then Some 20000000 else default))
      default_intervals empty_state
    = (Raise OverflowError,
       mk_State [DeleteMetrics (civil 2010 3 17 10 30 0) []] []).
Proof. vm_compute. reflexivity. Qed.

(** ** The windows of the trade metrics *)

Lemma floor_multiple (x d : Z) : d ≠ 0 -> (x - x mod d) mod d = 0.
Proof.
  intros Hd. rewrite (Z_div_mod_eq_full x d) at 1.
  replace (d * (x / d) + x mod d - x mod d) with ((x / d) * d) by lia.
  now apply Z.mod_mul.
Qed.

(** X22.  The windows of the trade metrics are DAY, MTD and YTD in this
    order, in the zone of the snapshot.  The DAY window starts at most a day
    before the snapshot timestamp and never after it, at a wall-clock time
    that, moved forward by the offset, is a midnight. *)
Theorem trade_day_window (timestamp : datetime) (offset : Z) :
  ∃ day mtd ytd,
    trade_windows timestamp offset = [("DAY", day); ("MTD", mtd); ("YTD", ytd)]
    ∧ wall timestamp - usec_per_day < wall day <= wall timestamp
    ∧ (wall day + offset * usec_per_minute) mod usec_per_day = 0
    ∧ utcoffset day = utcoffset timestamp
    ∧ utcoffset mtd = utcoffset timestamp
    ∧ utcoffset ytd = utcoffset timestamp.
Proof.
  unfold trade_windows. do 3 eexists. split; [reflexivity|].
  assert (Hd : usec_per_day ≠ 0) by (vm_compute; discriminate).
  assert (Hm : 0 <= (wall timestamp + offset * usec_per_minute) mod usec_per_day
               < usec_per_day)
    by (apply Z.mod_pos_bound; vm_compute; reflexivity).
  unfold sub_minutes, replace_midnight, add_minutes. cbn [wall utcoffset].
  split; [lia|]. split.
  - replace (wall timestamp + offset * usec_per_minute
             - (wall timestamp + offset * usec_per_minute) mod usec_per_day
             - offset * usec_per_minute + offset * usec_per_minute)
      with (wall timestamp + offset * usec_per_minute
            - (wall timestamp + offset * usec_per_minute) mod usec_per_day) by lia.
    now apply floor_multiple.
  - split; [reflexivity|].
    unfold replace_month_start, replace_year_start. cbn [wall utcoffset].
    destruct (civil_from_days _) as [[y m] d]. split; reflexivity.
Qed.

(** ** The periodic loop *)

Lemma wrap_from (is_closed : nat -> bool) (func : M unit) (name : string) (n : nat) :
  ∀ (poll fuel : nat) (st : State),
    (∀ k, (k < n)%nat -> is_closed (poll + k)%nat = false) ->
    is_closed (poll + n)%nat = true ->
    (n < fuel)%nat ->
    _wrap is_closed func name fuel poll st
      = Some (Nat.iter n (fun s => snd (try_except name func s)) st).
Proof.
  induction n as [|n IH]; intros poll fuel st Hopen Hclosed Hfuel.
  - destruct fuel as [|fuel]; [lia|]. simpl.
    rewrite Nat.add_0_r in Hclosed. now rewrite Hclosed.
  - destruct fuel as [|fuel]; [lia|]. cbn [_wrap].
    rewrite <- (Nat.add_0_r poll) at 1. rewrite (Hopen 0%nat) by lia.
    rewrite Nat.iter_succ_r.
    rewrite (IH (S poll) fuel).
    + f_equal. f_equal. unfold try_except.
      now destruct (func st) as [[u|e] st'].
    + intros k Hk. replace (S poll + k)%nat with (poll + S k)%nat by lia.
      apply Hopen. lia.
    + replace (S poll + n)%nat with (poll + S n)%nat by lia. exact Hclosed.
    + lia.
Qed.

(** X23.  The periodic loop runs its function once for every poll of the
    shutdown signal answered "not closed" and returns at the first poll
    answered "closed"; an exception of the function is logged under the
    function's name and does not end the loop. *)
Theorem wrap_runs_until_closed (is_closed : nat -> bool) (func : M unit)
    (name : string) (n fuel : nat) (st : State) :
  (∀ k, (k < n)%nat -> is_closed k = false) ->
  is_closed n = true ->
  (n < fuel)%nat ->
  _wrap is_closed func name fuel 0 st
    = Some (Nat.iter n (fun s => snd (try_except name func s)) st)
  ∧ (∀ e s s', func s = (Raise e, s') ->
       snd (try_except name func s) = warn name e s').
Proof.
  intros Hopen Hclosed Hfuel. split.
  - now apply wrap_from.
  - intros e s s' H. unfold try_except. now rewrite H.
Qed.

(** The purge raises at each of its two runs before the shutdown: the loop
    returns with the two exceptions logged and six deletes made. *)
Lemma wrap_runs_until_closed_witness :
  _wrap (fun k => (2 <=? k)%nat)
      (purge_metric (set_delete_metrics_result (quiet_context snapshot) refuse_recent)
         default_intervals)
      "purge_metric" 5 0 empty_state
    = Some (Nat.iter 2
              (fun s =>
                 snd (try_except "purge_metric"
                        (purge_metric
                           (set_delete_metrics_result (quiet_context snapshot)
                              refuse_recent)
                           default_intervals) s))
              empty_state).
Proof.
  apply (proj1 (wrap_runs_until_closed (fun k => (2 <=? k)%nat)
                  (purge_metric
                     (set_delete_metrics_result (quiet_context snapshot) refuse_recent)
                     default_intervals)
                  "purge_metric" 2 5 empty_state
                  (fun k Hk => proj2 (Nat.leb_gt 2 k) Hk) eq_refl
                  (le_S _ _ (le_S _ _ (le_n 3))))).
Defined.

Example wrap_purge_twice :
  (fun st => (length (calls st), warnings st))
    <$> _wrap (fun k => (2 <=? k)%nat)
          (purge_metric
             (set_delete_metrics_result (quiet_context snapshot) refuse_recent)
             default_intervals)
          "purge_metric" 5 0 empty_state
    = Some (6%nat, [ ("purge_metric", StorageError "delete");
                     ("purge_metric", StorageError "delete") ]).
Proof. vm_compute. reflexivity. Qed.
